(** * characteristic: attribute-driven class decorators

    A shallow embedding of [characteristic.py] (with_cmp, with_repr,
    with_init, attributes) and the properties of its synthesized methods.

    Python objects are modelled by their class reference and their attribute
    dictionary; attribute values are kept abstract behind the object protocol
    they are used through ([==], [<], [hash], [repr]).  Exceptions are
    explicit: every operation that can raise returns a [result]. *)

From Stdlib Require Import ZArith String Ascii List Bool Lia DecimalString.
From stdpp Require Import base option list gmap strings.

Open Scope string_scope.
Open Scope Z_scope.

(** ** Exceptions and results *)

Inductive type_error :=
| UnexpectedKeyword (name : string)
| MultipleValues (name : string)
| TooManyPositional
| MissingArguments (names : list string)
| NotCallable
| Unorderable.

Inductive syntax_error :=
| DuplicateArgument (name : string)
| NonDefaultAfterDefault.

Inductive exn :=
| AttributeError (name : string)
| NameError (name : string)
| KeyError
| SyntaxError (why : syntax_error)
| TypeError (why : type_error)
| RecursionError
| UserError (label : string).

Inductive result (A : Type) :=
| Ok (a : A)
| Raise (e : exn).
Arguments Ok {A} a.
Arguments Raise {A} e.

Definition bind {A B} (r : result A) (k : A -> result B) : result B :=
  match r with
  | Ok a => k a
  | Raise e => Raise e
  end.

Notation "x <- r ;; k" := (bind r (fun x => k))
  (at level 100, r at next level, right associativity).

(** Left-to-right evaluation of a generator expression into a list: the first
    element that raises ends the evaluation. *)
Fixpoint collect {A B} (f : A -> result B) (l : list A) : result (list B) :=
  match l with
  | [] => Ok []
  | a :: l' => b <- f a ;; bs <- collect f l' ;; Ok (b :: bs)
  end.

(** ** The object protocol of attribute values *)

Inductive cmp_op := Py_LT | Py_LE | Py_EQ | Py_NE | Py_GT | Py_GE.

(** What the synthesized methods ask of an attribute value.  [py_same v w] is
    the element test of container comparison (identity, else [v == w]);
    [py_richcmp op v w] is [v op w]; [py_str v] is [Some s] when [v] is the
    native string [s]; [py_is_True v] is [v is True] and [py_truthy v] is
    [bool(v)]. *)
Class PyValue (value : Type) := {
  py_same : value -> value -> result bool;
  py_richcmp : cmp_op -> value -> value -> result bool;
  py_hash : value -> result Z;
  py_repr : value -> result string;
  py_str : value -> option string;
  py_is_True : value -> bool;
  py_truthy : value -> bool
}.

(** ** Classes and instances *)

(** A class reference: its name and the names of its proper ancestors. *)
Record pytype := { tp_name : string; tp_ancestors : list string }.

Record obj (value : Type) := {
  ob_type : pytype;
  ob_dict : gmap string value
}.
Arguments ob_type {value} o.
Arguments ob_dict {value} o.

(** [isinstance(o, cls)]: the class of [o] is [cls] or derives from it. *)
Definition isinstance {value} (o : obj value) (cls : pytype) : bool :=
  bool_decide (tp_name (ob_type o) = tp_name cls)
  || bool_decide (tp_name cls ∈ tp_ancestors (ob_type o)).

Definition getattr {value} (o : obj value) (a : string) : result value :=
  match ob_dict o !! a with
  | Some v => Ok v
  | None => Raise (AttributeError a)
  end.

Definition setattr {value} (o : obj value) (a : string) (v : value) : obj value :=
  {| ob_type := ob_type o; ob_dict := <[a := v]> (ob_dict o) |}.

(** The value a comparison method returns. *)
Inductive answer :=
| Bool (b : bool)
| NotImplemented.

(** ** Built-in tuple comparison and hashing *)

Definition size_cmp (op : cmp_op) (n m : nat) : bool :=
  match op with
  | Py_LT => (n <? m)%nat
  | Py_LE => (n <=? m)%nat
  | Py_EQ => (n =? m)%nat
  | Py_NE => negb (n =? m)%nat
  | Py_GT => (m <? n)%nat
  | Py_GE => (m <=? n)%nat
  end.

Section Tuples.
Context {value : Type} `{PyValue value}.

(** Tuple rich comparison: skip the leading items that are the same; when
    one tuple is exhausted compare the sizes; otherwise the first differing
    pair decides. *)
Fixpoint tuple_richcompare (op : cmp_op) (v w : list value) : result bool :=
  match v, w with
  | x :: v', y :: w' =>
      k <- py_same x y ;;
      if k then tuple_richcompare op v' w'
      else match op with
           | Py_EQ => Ok false
           | Py_NE => Ok true
           | _ => py_richcmp op x y
           end
  | _, _ => Ok (size_cmp op (length v) (length w))
  end.

(** [hash(t)]: the item hashes, left to right, fed to the interpreter's
    combiner. *)
Definition tuple_hash (combine : list Z -> Z) (t : list value) : result Z :=
  hs <- collect py_hash t ;; Ok (combine hs).
End Tuples.

(** ** with_cmp *)

Section WithCmp.
Context {value : Type} `{PyValue value}.
Variable attrs : list string.

Definition attrs_to_tuple (o : obj value) : result (list value) :=
  collect (getattr o) attrs.

Definition eq (self other : obj value) : result answer :=
  if isinstance other (ob_type self) then
    t1 <- attrs_to_tuple self ;;
    t2 <- attrs_to_tuple other ;;
    b <- tuple_richcompare Py_EQ t1 t2 ;;
    Ok (Bool b)
  else Ok NotImplemented.

Definition ne (self other : obj value) : result answer :=
  r <- eq self other ;;
  match r with
  | NotImplemented => Ok NotImplemented
  | Bool b => Ok (Bool (negb b))
  end.

Definition lt (self other : obj value) : result answer :=
  if isinstance other (ob_type self) then
    t1 <- attrs_to_tuple self ;;
    t2 <- attrs_to_tuple other ;;
    b <- tuple_richcompare Py_LT t1 t2 ;;
    Ok (Bool b)
  else Ok NotImplemented.

Definition le (self other : obj value) : result answer :=
  if isinstance other (ob_type self) then
    t1 <- attrs_to_tuple self ;;
    t2 <- attrs_to_tuple other ;;
    b <- tuple_richcompare Py_LE t1 t2 ;;
    Ok (Bool b)
  else Ok NotImplemented.

Definition gt (self other : obj value) : result answer :=
  if isinstance other (ob_type self) then
    t1 <- attrs_to_tuple self ;;
    t2 <- attrs_to_tuple other ;;
    b <- tuple_richcompare Py_GT t1 t2 ;;
    Ok (Bool b)
  else Ok NotImplemented.

Definition ge (self other : obj value) : result answer :=
  if isinstance other (ob_type self) then
    t1 <- attrs_to_tuple self ;;
    t2 <- attrs_to_tuple other ;;
    b <- tuple_richcompare Py_GE t1 t2 ;;
    Ok (Bool b)
  else Ok NotImplemented.

Definition hash_ (combine : list Z -> Z) (self : obj value) : result Z :=
  t <- attrs_to_tuple self ;; tuple_hash combine t.
End WithCmp.

(** ** with_repr *)

(** [sep.join(parts)] *)
Fixpoint join (sep : string) (parts : list string) : string :=
  match parts with
  | [] => ""
  | [p] => p
  | p :: rest => p ++ sep ++ join sep rest
  end.

Section WithRepr.
Context {value : Type} `{PyValue value}.
Variable attrs : list string.

Definition repr_ (self : obj value) : result string :=
  let name := tp_name (ob_type self) in
  parts <- collect (fun a => v <- getattr self a ;;
                             r <- py_repr v ;;
                             Ok (a ++ "=" ++ r)) attrs ;;
  Ok ("<" ++ name ++ "(" ++ join ", " parts ++ ")>").
End WithRepr.

(** ** with_init: the generated constructor *)

(** The text handed to [exec]: the template of [with_init] after [format].
    [dedent] leaves it as it is, since the [def] line starts at the margin
    (it only blanks the body line that an empty attribute list leaves).
    Attribute names are identifiers that are not keywords (the documented
    ``native strings''), so the three joined pieces are a parameter list, an
    argument list and a run of assignments. *)
Section InitSource.
Context {value : Type}.
Variable attrs : list string.
Variable defaults : gmap string value.

Definition args_with_defaults : string :=
  join ", " (map (fun attr =>
                    if bool_decide (is_Some (defaults !! attr))
                    then attr ++ "=defaults[" ++ attr ++ "]"
                    else "attr") attrs).

Definition args : string := join ", " attrs.

Definition nl : string := String (ascii_of_nat 10) "".

Definition assignments : string :=
  join (nl ++ "    ") (map (fun attr => "self." ++ attr ++ " = " ++ attr) attrs).

Definition source : string :=
  nl ++ "def init(self, " ++ args_with_defaults ++ "):" ++ nl
     ++ "    " ++ assignments ++ nl
     ++ "    self.__original_init__(" ++ args ++ ")" ++ nl.
End InitSource.

(** The function definition that text denotes. *)
Inductive expr :=
| Name (x : string)
| DefaultsAt (x : string).

Record argdecl := { arg_name : string; arg_default : option expr }.

Inductive stmt :=
| AssignSelf (attr : string) (e : expr)
| CallOriginalInit (actuals : list expr).

Record funcdef := { def_args : list argdecl; def_body : list stmt }.

Section InitDef.
Context {value : Type}.
Variable attrs : list string.
Variable defaults : gmap string value.

Definition init_def : funcdef :=
  {| def_args :=
       {| arg_name := "self"; arg_default := None |}
       :: map (fun attr =>
                 if bool_decide (is_Some (defaults !! attr))
                 then {| arg_name := attr; arg_default := Some (DefaultsAt attr) |}
                 else {| arg_name := "attr"; arg_default := None |}) attrs;
     def_body :=
       map (fun attr => AssignSelf attr (Name attr)) attrs
       ++ [CallOriginalInit (map Name attrs)] |}.
End InitDef.

(** Printing a definition back to text, to tie [init_def] to [source]. *)
Definition print_expr (e : expr) : string :=
  match e with
  | Name x => x
  | DefaultsAt x => "defaults[" ++ x ++ "]"
  end.

Definition print_arg (a : argdecl) : string :=
  match arg_default a with
  | None => arg_name a
  | Some e => arg_name a ++ "=" ++ print_expr e
  end.

Definition print_stmt (s : stmt) : string :=
  match s with
  | AssignSelf attr e => "self." ++ attr ++ " = " ++ print_expr e
  | CallOriginalInit actuals =>
      "self.__original_init__(" ++ join ", " (map print_expr actuals) ++ ")"
  end.

(** The header lists [self] and then the remaining parameters after a comma,
    as the template does; the body is the assignments joined by a newline
    and the indentation, then the call on a line of its own. *)
Definition print_def (d : funcdef) : string :=
  match def_args d with
  | [] => ""
  | self :: rest =>
      nl ++ "def init(" ++ print_arg self ++ ", "
         ++ join ", " (map print_arg rest) ++ "):" ++ nl
         ++ "    " ++ join (nl ++ "    ") (map print_stmt (removelast (def_body d))) ++ nl
         ++ "    " ++ print_stmt (List.last (def_body d) (CallOriginalInit [])) ++ nl
  end.

(** ** Executing the generated definition *)

(** A dict is passed as its reference (a value) and its items. *)
Record pydict (value : Type) := {
  d_ref : value;
  d_items : gmap string value
}.
Arguments d_ref {value} _.
Arguments d_items {value} _.

(** A function object: the parameters with their default values, evaluated
    when the [def] statement ran, the body, and the dict of the globals the
    body runs in. *)
Record function (value : Type) := {
  fn_params : list (string * option value);
  fn_body : list stmt;
  fn_globals : pydict value
}.
Arguments fn_params {value} _.
Arguments fn_body {value} _.
Arguments fn_globals {value} _.

(** The compiler's checks on a parameter list: the parser rejects a parameter
    without default after one with a default; the symbol table then rejects a
    repeated name. *)
Fixpoint non_default_follows (seen_default : bool) (l : list argdecl) : bool :=
  match l with
  | [] => false
  | a :: l' =>
      match arg_default a with
      | Some _ => non_default_follows true l'
      | None => seen_default || non_default_follows seen_default l'
      end
  end.

Fixpoint first_duplicate (seen : list string) (l : list argdecl) : option string :=
  match l with
  | [] => None
  | a :: l' =>
      if bool_decide (arg_name a ∈ seen) then Some (arg_name a)
      else first_duplicate (arg_name a :: seen) l'
  end.

Definition compile (d : funcdef) : result funcdef :=
  if non_default_follows false (def_args d)
  then Raise (SyntaxError NonDefaultAfterDefault)
  else match first_duplicate [] (def_args d) with
       | Some x => Raise (SyntaxError (DuplicateArgument x))
       | None => Ok d
       end.

Section Exec.
Context {value : Type} `{PyValue value}.
(** The builtins namespace, the last place a name is looked up in. *)
Variable builtins : string -> option value.
(** [ns = {"defaults": defaults}], the globals of the executed text. *)
Variable defaults : pydict value.

Definition ns (x : string) : option value :=
  if bool_decide (x = "defaults") then Some (d_ref defaults) else None.

(** Name lookup: local variables, then [ns], then the builtins. *)
Definition lookup_name (locals : gmap string value) (x : string) : result value :=
  match locals !! x with
  | Some v => Ok v
  | None =>
      match ns x with
      | Some v => Ok v
      | None =>
          match builtins x with
          | Some v => Ok v
          | None => Raise (NameError x)
          end
      end
  end.

(** [defaults[v]] on the dict of [ns], whose keys are attribute names. *)
Definition subscript_defaults (v : value) : result value :=
  _ <- py_hash v ;;
  match py_str v with
  | Some s =>
      match d_items defaults !! s with
      | Some d => Ok d
      | None => Raise KeyError
      end
  | None => Raise KeyError
  end.

Definition eval_expr (locals : gmap string value) (e : expr) : result value :=
  match e with
  | Name x => lookup_name locals x
  | DefaultsAt x =>
      _ <- lookup_name locals "defaults" ;;
      v <- lookup_name locals x ;;
      subscript_defaults v
  end.

(** Running the [def] statement: the default expressions are evaluated
    left to right, in the scope of [exec] (no local is bound yet). *)
Definition make_function (d : funcdef) : result (function value) :=
  ps <- collect (fun a =>
                   match arg_default a with
                   | None => Ok (arg_name a, None)
                   | Some e => v <- eval_expr ∅ e ;; Ok (arg_name a, Some v)
                   end) (def_args d) ;;
  Ok {| fn_params := ps; fn_body := def_body d; fn_globals := defaults |}.

(** [exec(source, ns, locs); locs["init"]] *)
Definition exec_init (attrs : list string) : result (function value) :=
  d <- compile (init_def attrs (d_items defaults)) ;;
  make_function d.
End Exec.

(** ** Calling a function object *)

Section Call.
Context {value : Type}.

(** Keyword arguments, in call order: an unknown name and a name that
    already has a value are type errors. *)
Fixpoint bind_keywords (names : list string) (kw : list (string * value))
    (locals : gmap string value) : result (gmap string value) :=
  match kw with
  | [] => Ok locals
  | (k, v) :: kw' =>
      if bool_decide (k ∈ names) then
        match locals !! k with
        | Some _ => Raise (TypeError (MultipleValues k))
        | None => bind_keywords names kw' (<[k := v]> locals)
        end
      else Raise (TypeError (UnexpectedKeyword k))
  end.

(** Parameters left without a value take their default; those without a
    default are collected as missing. *)
Fixpoint fill_defaults (params : list (string * option value))
    (locals : gmap string value) : gmap string value * list string :=
  match params with
  | [] => (locals, [])
  | (x, d) :: params' =>
      match locals !! x, d with
      | Some _, _ => fill_defaults params' locals
      | None, Some v => fill_defaults params' (<[x := v]> locals)
      | None, None =>
          let '(locals', missing) := fill_defaults params' locals in
          (locals', x :: missing)
      end
  end.

Definition bind_args (params : list (string * option value))
    (pos : list value) (kw : list (string * value)) : result (gmap string value) :=
  let names := params.*1 in
  let locals := list_to_map (zip names pos) in
  locals <- bind_keywords names kw locals ;;
  if (length params <? length pos)%nat then Raise (TypeError TooManyPositional)
  else
    match fill_defaults params locals with
    | (locals, []) => Ok locals
    | (_, missing) => Raise (TypeError (MissingArguments missing))
    end.
End Call.

(** ** Class objects *)

(** A special-method entry of a class: what the class had, or a method
    synthesized from an attribute list. *)
Inductive slot :=
| Original
| Synthesized (attrs : list string).

(** An initializer is user code, which receives the instance and its
    arguments and leaves the instance in a new state or raises, or a
    function object made by [with_init]. *)
Inductive initializer (value : Type) :=
| UserInit (f : obj value -> list value -> list (string * value) -> result (obj value))
| SynthInit (fn : function value).
Arguments UserInit {value} f.
Arguments SynthInit {value} fn.

Record pyclass (value : Type) := {
  cl_type : pytype;
  cl_eq : slot;
  cl_ne : slot;
  cl_lt : slot;
  cl_le : slot;
  cl_gt : slot;
  cl_ge : slot;
  cl_hash : slot;
  cl_repr : slot;
  cl_init : initializer value;
  cl_original_init : option (initializer value)
}.
Arguments cl_type {value} _.
Arguments cl_eq {value} _.
Arguments cl_ne {value} _.
Arguments cl_lt {value} _.
Arguments cl_le {value} _.
Arguments cl_gt {value} _.
Arguments cl_ge {value} _.
Arguments cl_hash {value} _.
Arguments cl_repr {value} _.
Arguments cl_init {value} _.
Arguments cl_original_init {value} _.

(** [object.__init__] on a class whose [__init__] was replaced: it accepts
    no argument besides the instance. *)
Definition object_init {value} : initializer value :=
  UserInit (fun self pos kw =>
              match pos, kw with
              | [], [] => Ok self
              | _, _ => Raise (TypeError TooManyPositional)
              end).

Section Construct.
Context {value : Type} `{PyValue value}.
Variable builtins : string -> option value.

(** The body of the generated [init]: [self.attr = attr] stores into the
    instance; [self.__original_init__(...)] finds the attribute on the
    instance first (a stored value is data and cannot be called), then on
    the class, evaluates the arguments and calls. *)
Fixpoint run_body
    (call : initializer value -> obj value -> list value -> result (obj value))
    (cl : pyclass value) (defaults : pydict value) (locals : gmap string value)
    (body : list stmt) (self : obj value) : result (obj value) :=
  match body with
  | [] => Ok self
  | AssignSelf attr e :: body' =>
      v <- eval_expr builtins defaults locals e ;;
      run_body call cl defaults locals body' (setattr self attr v)
  | CallOriginalInit actuals :: body' =>
      self' <- match ob_dict self !! "__original_init__" with
               | Some _ => Raise (TypeError NotCallable)
               | None =>
                   match cl_original_init cl with
                   | None => Raise (AttributeError "__original_init__")
                   | Some original =>
                       vs <- collect (eval_expr builtins defaults locals) actuals ;;
                       call original self vs
                   end
               end ;;
      run_body call cl defaults locals body' self'
  end.

(** Calling an initializer as a bound method of [self] (whose reference, as
    a value, is [self_ref]).  [fuel] is the interpreter's recursion limit. *)
Fixpoint call_init (fuel : nat) (cl : pyclass value) (self_ref : value)
    (i : initializer value) (self : obj value)
    (pos : list value) (kw : list (string * value)) : result (obj value) :=
  match i with
  | UserInit f => f self pos kw
  | SynthInit fn =>
      match fuel with
      | O => Raise RecursionError
      | S fuel' =>
          locals <- bind_args (fn_params fn) (self_ref :: pos) kw ;;
          run_body (fun original self vs =>
                      call_init fuel' cl self_ref original self vs [])
                   cl (fn_globals fn) locals (fn_body fn) self
      end
  end.

(** Calling the class with positional arguments [pos] and keyword
    arguments [kw]: a new, empty instance is initialized by
    [cl.__init__]. *)
Definition construct (fuel : nat) (cl : pyclass value) (self_ref : value)
    (pos : list value) (kw : list (string * value)) : result (obj value) :=
  call_init fuel cl self_ref (cl_init cl)
            {| ob_type := cl_type cl; ob_dict := ∅ |} pos kw.
End Construct.

(** ** The decorators *)

Section Decorators.
Context {value : Type} `{PyValue value}.
Variable builtins : string -> option value.
(** The reference of the dict that [defaults = {}] creates. *)
Variable fresh_dict : value.

(** [with_cmp(attrs)(cl)] *)
Definition with_cmp (attrs : list string) (cl : pyclass value) : pyclass value :=
  {| cl_type := cl_type cl;
     cl_eq := Synthesized attrs;
     cl_ne := Synthesized attrs;
     cl_lt := Synthesized attrs;
     cl_le := Synthesized attrs;
     cl_gt := Synthesized attrs;
     cl_ge := Synthesized attrs;
     cl_hash := Synthesized attrs;
     cl_repr := cl_repr cl;
     cl_init := cl_init cl;
     cl_original_init := cl_original_init cl |}.

(** [with_repr(attrs)(cl)] *)
Definition with_repr (attrs : list string) (cl : pyclass value) : pyclass value :=
  {| cl_type := cl_type cl;
     cl_eq := cl_eq cl;
     cl_ne := cl_ne cl;
     cl_lt := cl_lt cl;
     cl_le := cl_le cl;
     cl_gt := cl_gt cl;
     cl_ge := cl_ge cl;
     cl_hash := cl_hash cl;
     cl_repr := Synthesized attrs;
     cl_init := cl_init cl;
     cl_original_init := cl_original_init cl |}.

Definition _make_wrap_init (init : function value) (cl : pyclass value) : pyclass value :=
  {| cl_type := cl_type cl;
     cl_eq := cl_eq cl;
     cl_ne := cl_ne cl;
     cl_lt := cl_lt cl;
     cl_le := cl_le cl;
     cl_gt := cl_gt cl;
     cl_ge := cl_ge cl;
     cl_hash := cl_hash cl;
     cl_repr := cl_repr cl;
     cl_init := SynthInit init;
     cl_original_init := Some (cl_init cl) |}.

Definition defaults_or_empty (defaults : option (pydict value)) : pydict value :=
  match defaults with
  | None => {| d_ref := fresh_dict; d_items := ∅ |}
  | Some d => d
  end.

(** [with_init(attrs, defaults)]: the decorator, or the exception raised
    while the text is compiled and executed. *)
Definition with_init (attrs : list string) (defaults : option (pydict value))
    : result (pyclass value -> pyclass value) :=
  let defaults := defaults_or_empty defaults in
  init <- exec_init builtins defaults attrs ;;
  Ok (_make_wrap_init init).

(** [attributes(attrs, defaults, create_init)(cl)]: the class object after
    the call and the exception raised, if any (otherwise the class object
    is what the decorator returns). *)
Definition attributes (attrs : list string) (defaults : option (pydict value))
    (create_init : value) (cl : pyclass value) : pyclass value * option exn :=
  let cl := with_cmp attrs (with_repr attrs cl) in
  if py_is_True create_init then
    match with_init attrs defaults with
    | Ok wrap => (wrap cl, None)
    | Raise e => (cl, Some e)
    end
  else (cl, None).
End Decorators.

(** ** A concrete universe of values

    None, booleans, integers, native strings, builtin functions and
    references to other objects (instances, dicts) known by a label and
    compared by identity, with the protocol of Python 3. *)

Inductive pyval :=
| PNone
| PBool (b : bool)
| PInt (z : Z)
| PStr (s : string)
| PBuiltinFunction (name : string)
| PRef (label : string).

Definition as_number (v : pyval) : option Z :=
  match v with
  | PBool b => Some (if b then 1 else 0)
  | PInt z => Some z
  | _ => None
  end.

(** [v == w] *)
Definition pyval_eq (v w : pyval) : bool :=
  match as_number v, as_number w with
  | Some n, Some m => n =? m
  | _, _ =>
      match v, w with
      | PNone, PNone => true
      | PStr s, PStr t => String.eqb s t
      | PBuiltinFunction f, PBuiltinFunction g => String.eqb f g
      | PRef i, PRef j => String.eqb i j
      | _, _ => false
      end
  end.

Definition number_cmp (op : cmp_op) (n m : Z) : bool :=
  match op with
  | Py_LT => n <? m
  | Py_LE => n <=? m
  | Py_EQ => n =? m
  | Py_NE => negb (n =? m)
  | Py_GT => m <? n
  | Py_GE => m <=? n
  end.

Definition string_cmp (op : cmp_op) (s t : string) : bool :=
  match op with
  | Py_LT => String.ltb s t
  | Py_LE => String.leb s t
  | Py_EQ => String.eqb s t
  | Py_NE => negb (String.eqb s t)
  | Py_GT => String.ltb t s
  | Py_GE => String.leb t s
  end.

(** [v op w]: numbers order among themselves, strings among themselves; any
    other pair supports only [==] and [!=]. *)
Definition pyval_richcmp (op : cmp_op) (v w : pyval) : result bool :=
  match as_number v, as_number w with
  | Some n, Some m => Ok (number_cmp op n m)
  | _, _ =>
      match v, w with
      | PStr s, PStr t => Ok (string_cmp op s t)
      | _, _ =>
          match op with
          | Py_EQ => Ok (pyval_eq v w)
          | Py_NE => Ok (negb (pyval_eq v w))
          | _ => Raise (TypeError Unorderable)
          end
      end
  end.

(** The hash of an integer on a 64-bit build: the value modulo [2^61 - 1]
    with the sign kept, and [-2] in place of [-1]. *)
Definition int_hash (z : Z) : Z :=
  let h := Z.sgn z * (Z.abs z mod (2 ^ 61 - 1)) in
  if h =? -1 then -2 else h.

Definition hex_digit (n : N) : ascii :=
  if (n <? 10)%N then ascii_of_N (48 + n) else ascii_of_N (87 + n).

(** [repr] of a string of ASCII text: quoted, with backslash escapes. *)
Fixpoint escape (quote : ascii) (s : string) : string :=
  match s with
  | EmptyString => ""
  | String c s' =>
      let n := N_of_ascii c in
      (if Ascii.eqb c quote || Ascii.eqb c "\"%char then String "\"%char (String c "")
       else if (n =? 9)%N then "\t"
       else if (n =? 10)%N then "\n"
       else if (n =? 13)%N then "\r"
       else if (n <? 32)%N || (n =? 127)%N
            then "\x" ++ String (hex_digit (n / 16)) (String (hex_digit (n mod 16)) "")
       else String c "") ++ escape quote s'
  end.

Fixpoint contains (c : ascii) (s : string) : bool :=
  match s with
  | EmptyString => false
  | String d s' => Ascii.eqb c d || contains c s'
  end.

Definition str_repr (s : string) : string :=
  let quote : ascii :=
    if contains "'"%char s && negb (contains (ascii_of_nat 34) s)
    then ascii_of_nat 34 else "'"%char in
  String quote (escape quote s) ++ String quote "".

Definition pyval_repr (v : pyval) : string :=
  match v with
  | PNone => "None"
  | PBool b => if b then "True" else "False"
  | PInt z => NilZero.string_of_int (Z.to_int z)
  | PStr s => str_repr s
  | PBuiltinFunction f => "<built-in function " ++ f ++ ">"
  | PRef i => "<" ++ i ++ ">"
  end.

Definition pyval_truthy (v : pyval) : bool :=
  match v with
  | PNone => false
  | PBool b => b
  | PInt z => negb (z =? 0)
  | PStr s => negb (String.eqb s "")
  | PBuiltinFunction _ => true
  | PRef _ => true
  end.

Section PyvalProtocol.
(** The hash of the objects whose hash changes from one run of the
    interpreter to the next: strings (the hash seed) and objects hashed by
    address. *)
Variable run_hash : pyval -> Z.

Definition pyval_hash (v : pyval) : Z :=
  match as_number v with
  | Some n => int_hash n
  | None => run_hash v
  end.

Definition pyval_protocol : PyValue pyval :=
  {| py_same := fun v w => Ok (pyval_eq v w);
     py_richcmp := pyval_richcmp;
     py_hash := fun v => Ok (pyval_hash v);
     py_repr := fun v => Ok (pyval_repr v);
     py_str := fun v => match v with PStr s => Some s | _ => None end;
     py_is_True := fun v => match v with PBool true => true | _ => false end;
     py_truthy := pyval_truthy |}.
End PyvalProtocol.

(** One run of the interpreter, for the examples. *)
Definition run0 : pyval -> Z := fun _ => 0.

#[export] Instance pyval_value : PyValue pyval := pyval_protocol run0.

(** The tuple hash of CPython up to 3.7, on 64-bit words. *)
Definition wrap64 (z : Z) : Z := z mod 2 ^ 64.

Fixpoint tuple_hash_loop (x mult : Z) (hs : list Z) : Z :=
  match hs with
  | [] => wrap64 (x + 97531)
  | y :: hs' =>
      let len := Z.of_nat (length hs') in
      tuple_hash_loop (wrap64 (Z.lxor x (wrap64 y) * mult))
                      (wrap64 (mult + (82520 + len + len))) hs'
  end.

Definition signed64 (z : Z) : Z := if z <? 2 ^ 63 then z else z - 2 ^ 64.

Definition tuple_combine (hs : list Z) : Z :=
  let x := tuple_hash_loop 3430008 1000003 hs in
  if x =? 2 ^ 64 - 1 then -2 else signed64 x.

(** The entries of the builtins namespace the examples use. *)
Definition py_builtins (x : string) : option pyval :=
  if bool_decide (x ∈ ["id"; "len"; "abs"; "hash"; "repr"; "min"; "max"])
  then Some (PBuiltinFunction x) else None.

(** References of the objects of the examples. *)
Definition dict_ref : pyval := PRef "defaults".
Definition instance_ref : pyval := PRef "instance".

(** ** The running example

    A class [Type] augmented with the attributes [a] and [b], where [b]
    defaults to [0], and a subclass of it. *)

Definition Type_ : pytype := {| tp_name := "Type"; tp_ancestors := [] |}.
Definition SubType : pytype := {| tp_name := "SubType"; tp_ancestors := ["Type"] |}.
Definition Other : pytype := {| tp_name := "Other"; tp_ancestors := [] |}.

Definition ab : list string := ["a"; "b"].

Definition b_is_0 : pydict pyval :=
  {| d_ref := dict_ref; d_items := {["b" := PInt 0]} |}.

Definition instance_ab (t : pytype) (a b : Z) : obj pyval :=
  {| ob_type := t; ob_dict := <["a" := PInt a]> (<["b" := PInt b]> ∅) |}.

Definition instance_of (t : pytype) (a b : pyval) : obj pyval :=
  {| ob_type := t; ob_dict := <["a" := a]> (<["b" := b]> ∅) |}.

(** A user-written initializer that records in a derived attribute how many
    arguments it received. *)
Definition counting_init : initializer pyval :=
  UserInit (fun self pos kw =>
              Ok (setattr self "count" (PInt (Z.of_nat (length pos + length kw))))).

Definition plain_class (t : pytype) (init : initializer pyval) : pyclass pyval :=
  {| cl_type := t;
     cl_eq := Original; cl_ne := Original; cl_lt := Original; cl_le := Original;
     cl_gt := Original; cl_ge := Original; cl_hash := Original; cl_repr := Original;
     cl_init := init; cl_original_init := None |}.

(** The function object that [with_init(["attr"])] makes. *)
Definition init_attr : function pyval :=
  {| fn_params := [("self", None); ("attr", None)];
     fn_body := [AssignSelf "attr" (Name "attr"); CallOriginalInit [Name "attr"]];
     fn_globals := {| d_ref := dict_ref; d_items := ∅ |} |}.

(** The function object that [with_init(["a"])] makes. *)
Definition init_a : function pyval :=
  {| fn_params := [("self", None); ("attr", None)];
     fn_body := [AssignSelf "a" (Name "a"); CallOriginalInit [Name "a"]];
     fn_globals := {| d_ref := dict_ref; d_items := ∅ |} |}.

(** ** Auxiliary notions for the statements *)

(** The common shape of the five comparisons that [with_cmp] writes out. *)
Definition compare_with {value} `{PyValue value} (attrs : list string) (op : cmp_op)
    (self other : obj value) : result answer :=
  if isinstance other (ob_type self) then
    t1 <- attrs_to_tuple attrs self ;;
    t2 <- attrs_to_tuple attrs other ;;
    b <- tuple_richcompare op t1 t2 ;;
    Ok (Bool b)
  else Ok NotImplemented.

(** The six relational methods that [with_cmp attrs] installs. *)
Definition comparisons {value} `{PyValue value} (attrs : list string)
    : list (obj value -> obj value -> result answer) :=
  [eq attrs; ne attrs; lt attrs; le attrs; gt attrs; ge attrs].

(** Values that cannot be hashed: the protocol of the concrete values with
    a [hash] that raises, as for lists and dicts (a type error in Python,
    kept here as a labelled exception). *)
Definition unhashable_protocol : PyValue pyval :=
  {| py_same := fun v w => Ok (pyval_eq v w);
     py_richcmp := pyval_richcmp;
     py_hash := fun _ => Raise (UserError "unhashable type");
     py_repr := fun v => Ok (pyval_repr v);
     py_str := fun v => match v with PStr s => Some s | _ => None end;
     py_is_True := fun v => match v with PBool true => true | _ => false end;
     py_truthy := pyval_truthy |}.

(** Values of a class whose [__eq__] answers [True] to everything while its
    [__hash__] is the number held: such values break the contract between
    [==] and [hash]. *)
Definition careless_protocol : PyValue pyval :=
  {| py_same := fun _ _ => Ok true;
     py_richcmp := pyval_richcmp;
     py_hash := fun v => Ok (pyval_hash run0 v);
     py_repr := fun v => Ok (pyval_repr v);
     py_str := fun v => match v with PStr s => Some s | _ => None end;
     py_is_True := fun v => match v with PBool true => true | _ => false end;
     py_truthy := pyval_truthy |}.

(** The function object that [with_init(["len"])] makes. *)
Definition init_len : function pyval :=
  {| fn_params := [("self", None); ("attr", None)];
     fn_body := [AssignSelf "len" (Name "len"); CallOriginalInit [Name "len"]];
     fn_globals := {| d_ref := dict_ref; d_items := ∅ |} |}.

(** A user-written initializer that keeps the first argument it receives
    in a derived attribute. *)
Definition recording_init : initializer pyval :=
  UserInit (fun self pos kw =>
              match pos with
              | v :: _ => Ok (setattr self "received" v)
              | [] => Ok self
              end).

(** An instance that has the attribute [a] only. *)
Definition instance_a_only (t : pytype) (a : Z) : obj pyval :=
  {| ob_type := t; ob_dict := {["a" := PInt a]} |}.

(** The parameter that [with_init] writes for an attribute. *)
Definition parameter_of {value} (defaults : gmap string value) (attr : string) : argdecl :=
  if bool_decide (is_Some (defaults !! attr))
  then {| arg_name := attr; arg_default := Some (DefaultsAt attr) |}
  else {| arg_name := "attr"; arg_default := None |}.

(** The comparison seen from the other operand. *)
Definition swapped (op : cmp_op) : cmp_op :=
  match op with
  | Py_LT => Py_GT
  | Py_LE => Py_GE
  | Py_EQ => Py_EQ
  | Py_NE => Py_NE
  | Py_GT => Py_LT
  | Py_GE => Py_LE
  end.

(** A boolean outcome of an item comparison as the outcome of a method. *)
Definition as_answer (r : result bool) : result answer :=
  b <- r ;; Ok (Bool b).

(** The values of the attributes [attrs] of [o], in order. *)
Definition value_tuple {value} (attrs : list string) (o : obj value) (t : list value) : Prop :=
  Forall2 (fun a v => ob_dict o !! a = Some v) attrs t.

(** Item-wise sameness of two tuples. *)
Definition same_items {value} `{PyValue value} (t1 t2 : list value) : Prop :=
  Forall2 (fun v w => py_same v w = Ok true) t1 t2.

(** The text [attr1=value1, attr2=value2, ...] for named, printed values. *)
Fixpoint listing (l : list (string * string)) : string :=
  match l with
  | [] => ""
  | [(a, r)] => a ++ "=" ++ r
  | (a, r) :: rest => a ++ "=" ++ r ++ ", " ++ listing rest
  end.

(** Assigning the values [vs] to the attributes [attrs], one after the
    other. *)
Fixpoint assign_all {value} (attrs : list string) (vs : list value)
    (self : obj value) : obj value :=
  match attrs, vs with
  | a :: attrs', v :: vs' => assign_all attrs' vs' (setattr self a v)
  | _, _ => self
  end.

Definition new_instance {value} (cl : pyclass value) : obj value :=
  {| ob_type := cl_type cl; ob_dict := ∅ |}.

(** What [v < w] being true says about two concrete values. *)
Inductive pyval_less : pyval -> pyval -> Prop :=
| less_numbers v w n m :
    as_number v = Some n -> as_number w = Some m -> n < m -> pyval_less v w
| less_strings s t :
    String.ltb s t = true -> pyval_less (PStr s) (PStr t).

(** * Properties *)

(** ** Results and tuples *)

Lemma bind_ok {A B} (r : result A) (k : A -> result B) (b : B) :
  bind r k = Ok b -> exists a, r = Ok a /\ k a = Ok b.
Proof. destruct r as [a|e]; simpl; [eauto | discriminate]. Qed.

Lemma Ok_inj {A} (a b : A) : Ok a = Ok b -> a = b.
Proof. intros Hab. inversion Hab. reflexivity. Qed.

Lemma append_assoc (s t u : string) : (s ++ t) ++ u = s ++ (t ++ u).
Proof.
  induction s as [|c s IH]; [reflexivity|].
  change (String c ((s ++ t) ++ u) = String c (s ++ (t ++ u))).
  f_equal. exact IH.
Qed.

Lemma collect_length {A B} (f : A -> result B) (l : list A) (bs : list B) :
  collect f l = Ok bs -> length bs = length l.
Proof.
  revert bs. induction l as [|a l IH]; simpl; intros bs Hc.
  - inversion Hc. reflexivity.
  - apply bind_ok in Hc as (b & _ & Hc).
    apply bind_ok in Hc as (bs' & Hbs & Hc).
    inversion Hc; subst. simpl. f_equal. apply IH. exact Hbs.
Qed.

Lemma collect_Forall2 {A B} (f : A -> result B) (l : list A) (bs : list B) :
  collect f l = Ok bs <-> Forall2 (fun a b => f a = Ok b) l bs.
Proof.
  split.
  - revert bs. induction l as [|a l IH]; simpl; intros bs Hc.
    + inversion Hc. constructor.
    + apply bind_ok in Hc as (b & Hb & Hc).
      apply bind_ok in Hc as (bs' & Hbs & Hc).
      inversion Hc; subst. constructor; [exact Hb | apply IH; exact Hbs].
  - induction 1 as [|a b l bs Hab _ IH]; simpl; [reflexivity|].
    rewrite Hab. simpl. rewrite IH. reflexivity.
Qed.

Lemma getattr_ok {value} (o : obj value) (a : string) (v : value) :
  getattr o a = Ok v <-> ob_dict o !! a = Some v.
Proof.
  unfold getattr. destruct (ob_dict o !! a); split; intros Hx;
    inversion Hx; subst; reflexivity.
Qed.

Lemma attrs_to_tuple_ok {value} (attrs : list string) (o : obj value) (t : list value) :
  attrs_to_tuple attrs o = Ok t <-> value_tuple attrs o t.
Proof.
  unfold attrs_to_tuple, value_tuple. rewrite collect_Forall2.
  split; intros Hf; eapply Forall2_impl; try exact Hf;
    intros a v; apply getattr_ok.
Qed.

Lemma isinstance_same_type {value} (x y : obj value) :
  ob_type x = ob_type y -> isinstance y (ob_type x) = true.
Proof.
  intros Ht. unfold isinstance. rewrite Ht.
  rewrite bool_decide_eq_true_2 by reflexivity. reflexivity.
Qed.

Section ComparisonFacts.
Context {value : Type} `{PyValue value}.

Lemma eq_compare_with attrs (x y : obj value) :
  eq attrs x y = compare_with attrs Py_EQ x y.
Proof. reflexivity. Qed.
Lemma lt_compare_with attrs (x y : obj value) :
  lt attrs x y = compare_with attrs Py_LT x y.
Proof. reflexivity. Qed.
Lemma le_compare_with attrs (x y : obj value) :
  le attrs x y = compare_with attrs Py_LE x y.
Proof. reflexivity. Qed.
Lemma gt_compare_with attrs (x y : obj value) :
  gt attrs x y = compare_with attrs Py_GT x y.
Proof. reflexivity. Qed.
Lemma ge_compare_with attrs (x y : obj value) :
  ge attrs x y = compare_with attrs Py_GE x y.
Proof. reflexivity. Qed.

Lemma compare_with_unsupported attrs op (x y : obj value) :
  compare_with attrs op x y = Ok NotImplemented
  <-> isinstance y (ob_type x) = false.
Proof.
  unfold compare_with. destruct (isinstance y (ob_type x)).
  - split; [|discriminate]. intros Hc.
    destruct (attrs_to_tuple attrs x) as [t1|]; simpl in Hc; [|discriminate].
    destruct (attrs_to_tuple attrs y) as [t2|]; simpl in Hc; [|discriminate].
    destruct (tuple_richcompare op t1 t2); simpl in Hc; discriminate.
  - split; reflexivity.
Qed.

Lemma ne_of_eq attrs (x y : obj value) :
  ne attrs x y = match eq attrs x y with
                 | Ok (Bool b) => Ok (Bool (negb b))
                 | Ok NotImplemented => Ok NotImplemented
                 | Raise e => Raise e
                 end.
Proof.
  unfold ne. destruct (eq attrs x y) as [[b|]|e]; reflexivity.
Qed.

Lemma compare_with_same_type attrs op (x y : obj value) t1 t2 :
  ob_type x = ob_type y ->
  value_tuple attrs x t1 -> value_tuple attrs y t2 ->
  compare_with attrs op x y = as_answer (tuple_richcompare op t1 t2).
Proof.
  intros Ht H1 H2. unfold compare_with.
  rewrite (isinstance_same_type x y Ht).
  apply attrs_to_tuple_ok in H1. apply attrs_to_tuple_ok in H2.
  rewrite H1, H2. reflexivity.
Qed.
End ComparisonFacts.

(** ** The type check of the comparisons *)

Section TypeCheck.
Context {value : Type} `{PyValue value}.

(** C2, as the code has it: each of the six relational methods returns
    [NotImplemented] exactly when the other operand is not an instance of
    the class of [self], that is, of that class or of a class derived from
    it; in that case nothing is read or compared, so nothing raises. *)
Theorem relational_unsupported_iff_not_instance attrs (self other : obj value) :
  let unsupported := isinstance other (ob_type self) = false in
  (eq attrs self other = Ok NotImplemented <-> unsupported)
  /\ (ne attrs self other = Ok NotImplemented <-> unsupported)
  /\ (lt attrs self other = Ok NotImplemented <-> unsupported)
  /\ (le attrs self other = Ok NotImplemented <-> unsupported)
  /\ (gt attrs self other = Ok NotImplemented <-> unsupported)
  /\ (ge attrs self other = Ok NotImplemented <-> unsupported).
Proof.
  cbv zeta.
  rewrite ne_of_eq, eq_compare_with, lt_compare_with, le_compare_with,
    gt_compare_with, ge_compare_with.
  repeat split; try (apply compare_with_unsupported; assumption).
  - intros Hne. apply (compare_with_unsupported attrs Py_EQ).
    destruct (compare_with attrs Py_EQ self other) as [[b|]|e];
      [discriminate | reflexivity | discriminate].
  - intros Hi. apply (compare_with_unsupported attrs Py_EQ) in Hi.
    rewrite Hi. reflexivity.
Qed.

(** C7, as the code has it: [ne] is computed from [eq]; whenever [eq]
    returns a boolean, [ne] returns its negation, which is the case for
    every instance of the class of [self] whose attributes can be read
    and compared; [ne] returns [NotImplemented] exactly when [eq] does,
    that is, when the other operand is not such an instance; and an
    exception of [eq] is the exception of [ne]. *)
Theorem ne_complements_eq attrs (self other : obj value) :
  (forall b, eq attrs self other = Ok (Bool b)
             <-> ne attrs self other = Ok (Bool (negb b)))
  /\ (ne attrs self other = Ok NotImplemented
      <-> eq attrs self other = Ok NotImplemented)
  /\ (eq attrs self other = Ok NotImplemented
      <-> isinstance other (ob_type self) = false)
  /\ (forall e, eq attrs self other = Raise e <-> ne attrs self other = Raise e).
Proof.
  rewrite ne_of_eq. repeat split.
  - intros ->. reflexivity.
  - destruct (eq attrs self other) as [[c|]|e]; try discriminate.
    intros Hn. inversion Hn as [Hb]. destruct b, c; simpl in Hb; congruence.
  - destruct (eq attrs self other) as [[c|]|e]; try discriminate. reflexivity.
  - intros ->. reflexivity.
  - apply compare_with_unsupported.
  - apply compare_with_unsupported.
  - intros ->. reflexivity.
  - destruct (eq attrs self other) as [[c|]|e']; try discriminate.
    intros Hn. inversion Hn. reflexivity.
Qed.
End TypeCheck.

(** C2, as stated, fails: an instance of a subclass has another concrete
    type than [self], and is compared all the same. *)
Lemma subclass_operand_is_compared :
  ob_type (instance_ab Type_ 5 0) <> ob_type (instance_ab SubType 5 0)
  /\ eq ab (instance_ab Type_ 5 0) (instance_ab SubType 5 0) = Ok (Bool true)
  /\ lt ab (instance_ab Type_ 5 0) (instance_ab SubType 5 1) = Ok (Bool true)
  /\ le ab (instance_ab Type_ 5 0) (instance_ab SubType 5 1) = Ok (Bool true)
  /\ gt ab (instance_ab Type_ 5 0) (instance_ab SubType 5 1) = Ok (Bool false)
  /\ ge ab (instance_ab Type_ 5 0) (instance_ab SubType 5 1) = Ok (Bool false).
Proof.
  split; [discriminate|]. repeat split; vm_compute; reflexivity.
Qed.

(** C7, as stated, fails: for an operand of a subclass, a different concrete
    type, [ne] returns the negation of [eq], not [NotImplemented]. *)
Lemma ne_negates_eq_for_subclass :
  ob_type (instance_ab Type_ 5 0) <> ob_type (instance_ab SubType 5 0)
  /\ eq ab (instance_ab Type_ 5 0) (instance_ab SubType 5 0) = Ok (Bool true)
  /\ ne ab (instance_ab Type_ 5 0) (instance_ab SubType 5 0) = Ok (Bool false)
  /\ ne ab (instance_ab Type_ 5 0) (instance_ab SubType 5 0) <> Ok NotImplemented.
Proof.
  split; [discriminate|]. repeat split; try (vm_compute; reflexivity).
  vm_compute. discriminate.
Qed.

(** The sentinel is returned for an unrelated class, and also for an
    instance of the base class compared from the subclass. *)
Example unrelated_operand_unsupported :
  eq ab (instance_ab Type_ 5 0) (instance_ab Other 5 0) = Ok NotImplemented
  /\ ne ab (instance_ab Type_ 5 0) (instance_ab Other 5 0) = Ok NotImplemented
  /\ lt ab (instance_ab SubType 5 0) (instance_ab Type_ 5 0) = Ok NotImplemented.
Proof. repeat split; vm_compute; reflexivity. Qed.

(** ** Comparison of value tuples *)

Section Lexicographic.
Context {value : Type} `{PyValue value}.

Lemma same_items_length (t1 t2 : list value) :
  same_items t1 t2 -> length t1 = length t2.
Proof. induction 1; simpl; congruence. Qed.

Lemma tuple_richcompare_same op (t1 t2 : list value) :
  same_items t1 t2 ->
  tuple_richcompare op t1 t2 = Ok (size_cmp op (length t1) (length t1)).
Proof.
  induction 1 as [|v w t1 t2 Hvw _ IH]; simpl; [reflexivity|].
  rewrite Hvw. simpl. rewrite IH. destruct op; reflexivity.
Qed.

Lemma tuple_richcompare_first_difference op (pre1 pre2 post1 post2 : list value) v w :
  same_items pre1 pre2 -> py_same v w = Ok false ->
  tuple_richcompare op (pre1 ++ v :: post1) (pre2 ++ w :: post2)
  = match op with
    | Py_EQ => Ok false
    | Py_NE => Ok true
    | _ => py_richcmp op v w
    end.
Proof.
  intros Hpre Hvw.
  induction Hpre as [|a b pre1 pre2 Hab _ IH]; simpl.
  - rewrite Hvw. reflexivity.
  - rewrite Hab. simpl. exact IH.
Qed.

Lemma tuple_eq_true (t1 t2 : list value) :
  tuple_richcompare Py_EQ t1 t2 = Ok true <-> same_items t1 t2.
Proof.
  split.
  - revert t2. induction t1 as [|v t1 IH]; intros [|w t2]; simpl; intros He;
      try discriminate.
    + constructor.
    + destruct (py_same v w) as [[|]|] eqn:Hvw; simpl in He; try discriminate.
      constructor; [exact Hvw | apply IH; exact He].
  - intros Hs. rewrite (tuple_richcompare_same _ _ _ Hs). simpl.
    rewrite Nat.eqb_refl. reflexivity.
Qed.

(** C4: for two instances of one class whose attributes [attrs] have the
    values [tx] and [ty], [eq] is true exactly when the tuples are the
    same item by item; on such tuples [le] and [ge] hold and [lt] and [gt]
    do not; and at the first pair of items that differ, [eq] is false and
    each ordering method returns what that one pair gives. *)
Theorem comparisons_are_lexicographic attrs (x y : obj value) (tx ty : list value) :
  ob_type x = ob_type y ->
  value_tuple attrs x tx ->
  value_tuple attrs y ty ->
  (eq attrs x y = Ok (Bool true) <-> same_items tx ty)
  /\ (same_items tx ty ->
      lt attrs x y = Ok (Bool false) /\ le attrs x y = Ok (Bool true)
      /\ gt attrs x y = Ok (Bool false) /\ ge attrs x y = Ok (Bool true))
  /\ (forall pre1 v post1 pre2 w post2,
        tx = (pre1 ++ v :: post1)%list -> ty = (pre2 ++ w :: post2)%list ->
        same_items pre1 pre2 -> py_same v w = Ok false ->
        eq attrs x y = Ok (Bool false)
        /\ lt attrs x y = as_answer (py_richcmp Py_LT v w)
        /\ le attrs x y = as_answer (py_richcmp Py_LE v w)
        /\ gt attrs x y = as_answer (py_richcmp Py_GT v w)
        /\ ge attrs x y = as_answer (py_richcmp Py_GE v w)).
Proof.
  intros Ht Hx Hy.
  rewrite eq_compare_with, lt_compare_with, le_compare_with,
    gt_compare_with, ge_compare_with.
  rewrite !(compare_with_same_type attrs _ x y tx ty Ht Hx Hy).
  split; [|split].
  - rewrite <- tuple_eq_true. unfold as_answer.
    destruct (tuple_richcompare Py_EQ tx ty) as [b|e]; simpl.
    + split; intros Hb; inversion Hb; reflexivity.
    + split; discriminate.
  - intros Hs. rewrite !(tuple_richcompare_same _ _ _ Hs). simpl.
    rewrite Nat.ltb_irrefl, Nat.leb_refl. repeat split; reflexivity.
  - intros pre1 v post1 pre2 w post2 -> -> Hpre Hvw.
    rewrite !(tuple_richcompare_first_difference _ _ _ _ _ _ _ Hpre Hvw).
    repeat split; reflexivity.
Qed.

(** No instance is less than itself, as every value is the same as itself
    (the item test of a tuple starts with identity). *)
Lemma lt_irreflexive attrs (x : obj value) (t : list value) :
  (forall v : value, py_same v v = Ok true) ->
  value_tuple attrs x t ->
  lt attrs x x = Ok (Bool false).
Proof.
  intros Hrefl Hx. rewrite lt_compare_with.
  rewrite (compare_with_same_type attrs Py_LT x x t t Logic.eq_refl Hx Hx).
  assert (Hs : same_items t t).
  { clear Hx. induction t as [|v t IH]; constructor; [apply Hrefl | exact IH]. }
  rewrite (tuple_richcompare_same _ _ _ Hs). simpl.
  rewrite Nat.ltb_irrefl. reflexivity.
Qed.
End Lexicographic.

(** C4 on the example: (1, 2) and (1, 3) differ first in [b]. *)
Lemma comparisons_are_lexicographic_witness :
  (ob_type (instance_ab Type_ 1 2) = ob_type (instance_ab Type_ 1 3)
   /\ value_tuple ab (instance_ab Type_ 1 2) [PInt 1; PInt 2]
   /\ value_tuple ab (instance_ab Type_ 1 3) [PInt 1; PInt 3])
  /\ eq ab (instance_ab Type_ 1 2) (instance_ab Type_ 1 3) = Ok (Bool false)
  /\ lt ab (instance_ab Type_ 1 2) (instance_ab Type_ 1 3) = Ok (Bool true)
  /\ ge ab (instance_ab Type_ 1 2) (instance_ab Type_ 1 3) = Ok (Bool false).
Proof.
  assert (Hx : value_tuple ab (instance_ab Type_ 1 2) [PInt 1; PInt 2])
    by (repeat constructor).
  assert (Hy : value_tuple ab (instance_ab Type_ 1 3) [PInt 1; PInt 3])
    by (repeat constructor).
  split; [repeat split; assumption|].
  destruct (comparisons_are_lexicographic ab (instance_ab Type_ 1 2)
              (instance_ab Type_ 1 3) _ _ Logic.eq_refl Hx Hy)
    as (_ & _ & Hdiff).
  destruct (Hdiff [PInt 1] (PInt 2) [] [PInt 1] (PInt 3) [])
    as (He & Hl & _ & _ & Hg); try reflexivity.
  - repeat constructor.
  - repeat split; assumption.
Defined.

(** ** Hashing agrees with equality *)

Section HashConsistency.
Context {value : Type} `{PyValue value}.

(** The contract between [==] and [hash] on attribute values. *)
Hypothesis same_values_hash_alike :
  forall v w : value, py_same v w = Ok true -> py_hash v = py_hash w.

Lemma collect_hash_same (t1 t2 : list value) :
  same_items t1 t2 -> collect py_hash t1 = collect py_hash t2.
Proof.
  induction 1 as [|v w t1 t2 Hvw _ IH]; simpl; [reflexivity|].
  rewrite (same_values_hash_alike v w Hvw), IH. reflexivity.
Qed.

(** C5, as the code has it: provided attribute values that compare equal
    hash alike, two instances that [eq] finds equal have the same hash (or
    fail to hash with the same exception), whatever the types of the
    attribute values; the hash of each is the combination, by the tuple
    hash, of the hashes of its attribute values in the order of the
    attribute list, and the two value tuples are the same item by item. *)
Theorem equal_instances_hash_alike attrs (combine : list Z -> Z) (x y : obj value) :
  eq attrs x y = Ok (Bool true) ->
  hash_ attrs combine x = hash_ attrs combine y
  /\ exists tx ty,
       value_tuple attrs x tx /\ value_tuple attrs y ty /\ same_items tx ty
       /\ hash_ attrs combine x = (hs <- collect py_hash tx ;; Ok (combine hs))
       /\ hash_ attrs combine y = (hs <- collect py_hash ty ;; Ok (combine hs)).
Proof.
  unfold eq, hash_, tuple_hash. intros He.
  destruct (isinstance y (ob_type x)); [|discriminate].
  destruct (attrs_to_tuple attrs x) as [t1|] eqn:H1; simpl in He; [|discriminate].
  destruct (attrs_to_tuple attrs y) as [t2|] eqn:H2; simpl in He; [|discriminate].
  destruct (tuple_richcompare Py_EQ t1 t2) as [[|]|] eqn:Ht; simpl in He;
    try discriminate.
  apply tuple_eq_true in Ht. simpl. split.
  - rewrite (collect_hash_same t1 t2 Ht). reflexivity.
  - exists t1, t2. apply attrs_to_tuple_ok in H1. apply attrs_to_tuple_ok in H2.
    repeat split; assumption || reflexivity.
Qed.
End HashConsistency.

(** ** The protocol of the concrete values *)

Lemma pyval_eq_true (v w : pyval) :
  pyval_eq v w = true ->
  as_number v = as_number w /\ (as_number v = None -> v = w).
Proof.
  destruct v as [|b|n|s|f|i], w as [|c|m|t|g|j]; simpl; try discriminate;
    intros He; split; try reflexivity; try discriminate;
    try (apply Z.eqb_eq in He; congruence);
    intros _; apply String.eqb_eq in He; congruence.
Qed.

Lemma pyval_eq_of_number (v w : pyval) n :
  as_number v = Some n -> as_number w = Some n -> pyval_eq v w = true.
Proof.
  unfold pyval_eq. intros -> ->. apply Z.eqb_refl.
Qed.

Lemma pyval_eq_refl (v : pyval) : pyval_eq v v = true.
Proof.
  destruct v as [|b|n|s|f|i]; simpl; try reflexivity;
    try apply Z.eqb_refl; apply String.eqb_refl.
Qed.

Lemma pyval_eq_trans (u v w : pyval) :
  pyval_eq u v = true -> pyval_eq v w = true -> pyval_eq u w = true.
Proof.
  intros Huv Hvw.
  apply pyval_eq_true in Huv as [Hn1 Hs1]. apply pyval_eq_true in Hvw as [Hn2 Hs2].
  destruct (as_number u) as [n|] eqn:Hu.
  - apply (pyval_eq_of_number u w n); congruence.
  - rewrite Hs1 by reflexivity. rewrite Hs2 by congruence. apply pyval_eq_refl.
Qed.

Lemma pyval_hash_consistent (run_hash : pyval -> Z) (v w : pyval) :
  pyval_eq v w = true -> pyval_hash run_hash v = pyval_hash run_hash w.
Proof.
  intros He. apply pyval_eq_true in He as [Hn Hs]. unfold pyval_hash.
  rewrite <- Hn. destruct (as_number v); [reflexivity|].
  rewrite Hs by reflexivity. reflexivity.
Qed.

Lemma string_compare_lt_trans (s t u : string) :
  String.compare s t = Lt -> String.compare t u = Lt -> String.compare s u = Lt.
Proof.
  revert t u. induction s as [|a s IH]; intros [|b t] [|c u]; simpl;
    try discriminate; try reflexivity.
  unfold Ascii.compare.
  destruct (N.compare_spec (N_of_ascii a) (N_of_ascii b)) as [Hab|Hab|Hab];
    try discriminate;
    destruct (N.compare_spec (N_of_ascii b) (N_of_ascii c)) as [Hbc|Hbc|Hbc];
    try discriminate; intros Hst Htu.
  - rewrite Hab, Hbc, N.compare_refl. eapply IH; eassumption.
  - rewrite Hab. apply N.compare_lt_iff in Hbc. rewrite Hbc. reflexivity.
  - rewrite <- Hbc. apply N.compare_lt_iff in Hab. rewrite Hab. reflexivity.
  - assert (Hac : (N_of_ascii a < N_of_ascii c)%N) by lia.
    apply N.compare_lt_iff in Hac. rewrite Hac. reflexivity.
Qed.

Lemma string_ltb_trans (s t u : string) :
  String.ltb s t = true -> String.ltb t u = true -> String.ltb s u = true.
Proof.
  unfold String.ltb. intros Hst Htu.
  destruct (String.compare s t) eqn:Cst; try discriminate.
  destruct (String.compare t u) eqn:Ctu; try discriminate.
  rewrite (string_compare_lt_trans s t u Cst Ctu). reflexivity.
Qed.

Lemma string_ltb_irrefl (s : string) : String.ltb s s = false.
Proof.
  unfold String.ltb.
  assert (Hc : String.compare s s = Eq).
  { induction s as [|a s IH]; simpl; [reflexivity|].
    unfold Ascii.compare. rewrite N.compare_refl. exact IH. }
  rewrite Hc. reflexivity.
Qed.

Lemma pyval_lt_true (v w : pyval) :
  pyval_richcmp Py_LT v w = Ok true <-> pyval_less v w.
Proof.
  split.
  - destruct v as [|b|n|s|f|i], w as [|c|m|t|g|j]; simpl; try discriminate;
      intros Hl; inversion Hl as [Hb];
      try (apply Z.ltb_lt in Hb; eapply less_numbers; simpl; eauto; fail).
    apply less_strings. exact Hb.
  - intros [v' w' n m Hv Hw Hnm | s t Hst].
    + unfold pyval_richcmp. rewrite Hv, Hw. simpl.
      apply Z.ltb_lt in Hnm. rewrite Hnm. reflexivity.
    + change (Ok (String.ltb s t) = Ok true). rewrite Hst. reflexivity.
Qed.

Lemma pyval_less_trans (u v w : pyval) :
  pyval_less u v -> pyval_less v w -> pyval_less u w.
Proof.
  intros [u' v' n m Hu Hv Hnm | s t Hst] Hvw; inversion Hvw; subst.
  - eapply less_numbers; eauto. assert (m = n0) by congruence. lia.
  - discriminate.
  - discriminate.
  - apply less_strings. eapply string_ltb_trans; eassumption.
Qed.

Lemma pyval_less_same_l (u v w : pyval) :
  pyval_eq u v = true -> pyval_less v w -> pyval_less u w.
Proof.
  intros He Hl. apply pyval_eq_true in He as [Hn Hs].
  destruct Hl as [v w n m Hv Hw Hnm | s t Hst].
  - eapply less_numbers; eauto. congruence.
  - rewrite Hs by (rewrite Hn; reflexivity). apply less_strings. exact Hst.
Qed.

Lemma pyval_less_same_r (u v w : pyval) :
  pyval_less u v -> pyval_eq v w = true -> pyval_less u w.
Proof.
  intros Hl He. apply pyval_eq_true in He as [Hn Hs].
  destruct Hl as [u v n m Hu Hv Hnm | s t Hst].
  - eapply less_numbers; eauto. congruence.
  - rewrite <- Hs by reflexivity. apply less_strings. exact Hst.
Qed.

Lemma pyval_less_not_eq (u v : pyval) :
  pyval_less u v -> pyval_eq u v = false.
Proof.
  intros [u' v' n m Hu Hv Hnm | s t Hst].
  - unfold pyval_eq. rewrite Hu, Hv. apply Z.eqb_neq. lia.
  - simpl. apply String.eqb_neq. intros ->.
    rewrite string_ltb_irrefl in Hst. discriminate.
Qed.

(** C5 on the example: [True] and [1] are equal values of different types,
    and the instances holding them hash alike. *)
Lemma equal_instances_hash_alike_witness :
  (forall v w : pyval, py_same v w = Ok true -> py_hash v = py_hash w)
  /\ eq ab (instance_of Type_ (PBool true) (PInt 0)) (instance_ab Type_ 1 0)
     = Ok (Bool true)
  /\ hash_ ab tuple_combine (instance_of Type_ (PBool true) (PInt 0))
     = hash_ ab tuple_combine (instance_ab Type_ 1 0).
Proof.
  assert (Hc : forall v w : pyval, py_same v w = Ok true -> py_hash v = py_hash w).
  { intros v w Hs. simpl in *. apply Ok_inj in Hs. f_equal.
    apply pyval_hash_consistent. exact Hs. }
  split; [exact Hc|]. split; [vm_compute; reflexivity|].
  refine (proj1 (equal_instances_hash_alike Hc ab tuple_combine
                   (instance_of Type_ (PBool true) (PInt 0))
                   (instance_ab Type_ 1 0) _)).
  vm_compute. reflexivity.
Defined.

(** C5, as stated, fails: nothing in [eq] or [hash_] makes the hashes of
    equal instances agree when the attribute values themselves compare
    equal without hashing alike. *)
Lemma equal_instances_hash_differently :
  @eq pyval careless_protocol ab (instance_ab Type_ 1 2) (instance_ab Type_ 3 4)
  = Ok (Bool true)
  /\ @hash_ pyval careless_protocol ab tuple_combine (instance_ab Type_ 1 2)
     <> @hash_ pyval careless_protocol ab tuple_combine (instance_ab Type_ 3 4).
Proof.
  split; [vm_compute; reflexivity|]. vm_compute. discriminate.
Qed.

(** ** The ordering is transitive *)

Section Transitivity.
Context {value : Type} `{PyValue value}.

(** An ordering of the attribute values that is transitive and agrees
    with their equality. *)
Hypothesis same_trans : forall u v w : value,
  py_same u v = Ok true -> py_same v w = Ok true -> py_same u w = Ok true.
Hypothesis less_trans : forall u v w : value,
  py_richcmp Py_LT u v = Ok true -> py_richcmp Py_LT v w = Ok true ->
  py_richcmp Py_LT u w = Ok true.
Hypothesis same_less : forall u v w : value,
  py_same u v = Ok true -> py_richcmp Py_LT v w = Ok true ->
  py_richcmp Py_LT u w = Ok true.
Hypothesis less_same : forall u v w : value,
  py_richcmp Py_LT u v = Ok true -> py_same v w = Ok true ->
  py_richcmp Py_LT u w = Ok true.
Hypothesis less_differs : forall u v : value,
  py_richcmp Py_LT u v = Ok true -> py_same u v = Ok false.

Lemma tuple_lt_trans (t1 t2 t3 : list value) :
  tuple_richcompare Py_LT t1 t2 = Ok true ->
  tuple_richcompare Py_LT t2 t3 = Ok true ->
  tuple_richcompare Py_LT t1 t3 = Ok true.
Proof.
  revert t2 t3. induction t1 as [|a t1 IH]; intros [|b t2] [|c t3]; simpl;
    try discriminate; try reflexivity.
  destruct (py_same a b) as [[|]|] eqn:Hab; simpl; try discriminate;
    destruct (py_same b c) as [[|]|] eqn:Hbc; simpl; try discriminate;
    intros H12 H23.
  - rewrite (same_trans a b c Hab Hbc). simpl. eapply IH; eassumption.
  - pose proof (same_less a b c Hab H23) as Hac.
    rewrite (less_differs a c Hac). simpl. exact Hac.
  - pose proof (less_same a b c H12 Hbc) as Hac.
    rewrite (less_differs a c Hac). simpl. exact Hac.
  - pose proof (less_trans a b c H12 H23) as Hac.
    rewrite (less_differs a c Hac). simpl. exact Hac.
Qed.

(** C9: on instances of one class, [lt] is transitive whenever the
    attribute values are ordered transitively and consistently with their
    equality. *)
Theorem lt_transitive attrs (x y z : obj value) :
  ob_type x = ob_type y -> ob_type y = ob_type z ->
  lt attrs x y = Ok (Bool true) ->
  lt attrs y z = Ok (Bool true) ->
  lt attrs x z = Ok (Bool true).
Proof.
  intros Hxy Hyz. unfold lt.
  rewrite (isinstance_same_type x y Hxy), (isinstance_same_type y z Hyz).
  rewrite (isinstance_same_type x z) by congruence.
  destruct (attrs_to_tuple attrs x) as [t1|]; simpl; [|discriminate].
  destruct (attrs_to_tuple attrs y) as [t2|]; simpl; [|discriminate].
  destruct (attrs_to_tuple attrs z) as [t3|]; simpl;
    [|destruct (tuple_richcompare Py_LT t1 t2); simpl; intros; discriminate].
  destruct (tuple_richcompare Py_LT t1 t2) as [[|]|] eqn:H12; simpl;
    try discriminate.
  destruct (tuple_richcompare Py_LT t2 t3) as [[|]|] eqn:H23; simpl;
    try discriminate.
  intros _ _. rewrite (tuple_lt_trans t1 t2 t3 H12 H23). reflexivity.
Qed.
End Transitivity.

(** C9 on the example: (1, 2) < (1, 3) < (2, 0). *)
Lemma lt_transitive_witness :
  ((forall u v w : pyval,
      py_same u v = Ok true -> py_same v w = Ok true -> py_same u w = Ok true)
   /\ (forall u v w : pyval,
         py_richcmp Py_LT u v = Ok true -> py_richcmp Py_LT v w = Ok true ->
         py_richcmp Py_LT u w = Ok true)
   /\ (forall u v w : pyval,
         py_same u v = Ok true -> py_richcmp Py_LT v w = Ok true ->
         py_richcmp Py_LT u w = Ok true)
   /\ (forall u v w : pyval,
         py_richcmp Py_LT u v = Ok true -> py_same v w = Ok true ->
         py_richcmp Py_LT u w = Ok true)
   /\ (forall u v : pyval,
         py_richcmp Py_LT u v = Ok true -> py_same u v = Ok false))
  /\ lt ab (instance_ab Type_ 1 2) (instance_ab Type_ 1 3) = Ok (Bool true)
  /\ lt ab (instance_ab Type_ 1 3) (instance_ab Type_ 2 0) = Ok (Bool true)
  /\ lt ab (instance_ab Type_ 1 2) (instance_ab Type_ 2 0) = Ok (Bool true).
Proof.
  assert (H1 : forall u v w : pyval,
             py_same u v = Ok true -> py_same v w = Ok true -> py_same u w = Ok true).
  { simpl. intros u v w Huv Hvw. apply Ok_inj in Huv. apply Ok_inj in Hvw.
    f_equal. eapply pyval_eq_trans; eassumption. }
  assert (H2 : forall u v w : pyval,
             py_richcmp Py_LT u v = Ok true -> py_richcmp Py_LT v w = Ok true ->
             py_richcmp Py_LT u w = Ok true).
  { simpl. intros u v w Huv Hvw. apply pyval_lt_true.
    apply pyval_lt_true in Huv. apply pyval_lt_true in Hvw.
    eapply pyval_less_trans; eassumption. }
  assert (H3 : forall u v w : pyval,
             py_same u v = Ok true -> py_richcmp Py_LT v w = Ok true ->
             py_richcmp Py_LT u w = Ok true).
  { simpl. intros u v w Huv Hvw. apply Ok_inj in Huv. apply pyval_lt_true.
    apply pyval_lt_true in Hvw. eapply pyval_less_same_l; eassumption. }
  assert (H4 : forall u v w : pyval,
             py_richcmp Py_LT u v = Ok true -> py_same v w = Ok true ->
             py_richcmp Py_LT u w = Ok true).
  { simpl. intros u v w Huv Hvw. apply Ok_inj in Hvw. apply pyval_lt_true.
    apply pyval_lt_true in Huv. eapply pyval_less_same_r; eassumption. }
  assert (H5 : forall u v : pyval,
             py_richcmp Py_LT u v = Ok true -> py_same u v = Ok false).
  { simpl. intros u v Huv. apply pyval_lt_true in Huv. f_equal.
    apply pyval_less_not_eq. exact Huv. }
  split; [repeat split; assumption|].
  split; [vm_compute; reflexivity|]. split; [vm_compute; reflexivity|].
  apply (lt_transitive H1 H2 H3 H4 H5 ab (instance_ab Type_ 1 2)
           (instance_ab Type_ 1 3) (instance_ab Type_ 2 0));
    try reflexivity; vm_compute; reflexivity.
Defined.

(** ** The text of repr_ *)

Lemma join_listing (l : list (string * string)) :
  join ", " (map (fun p => fst p ++ "=" ++ snd p) l) = listing l.
Proof.
  induction l as [|[a r] l IH]; simpl; [reflexivity|].
  destruct l as [|q l]; [reflexivity|].
  rewrite <- IH. cbn [map fst snd].
  rewrite !append_assoc. reflexivity.
Qed.

Section ReprFacts.
Context {value : Type} `{PyValue value}.

Lemma collect_parts attrs (self : obj value) (rs : list string) :
  Forall2 (fun a r => exists v, ob_dict self !! a = Some v /\ py_repr v = Ok r)
          attrs rs ->
  collect (fun a => v <- getattr self a ;; r <- py_repr v ;; Ok (a ++ "=" ++ r)) attrs
  = Ok (map (fun p => fst p ++ "=" ++ snd p) (zip attrs rs)).
Proof.
  induction 1 as [|a r attrs rs (v & Hv & Hr) _ IH]; simpl; [reflexivity|].
  rewrite (proj2 (getattr_ok self a v) Hv). simpl.
  rewrite Hr. simpl. rewrite IH. reflexivity.
Qed.

(** C8, as the code has it: when every attribute of [attrs] is present and
    prints as the corresponding text of [rs], [repr_] is the class name and
    the listing [attr1=value1, attr2=value2, ...] in the order of [attrs],
    between parentheses and enclosed in angle brackets. *)
Theorem repr_format attrs (self : obj value) (rs : list string) :
  Forall2 (fun a r => exists v, ob_dict self !! a = Some v /\ py_repr v = Ok r)
          attrs rs ->
  repr_ attrs self
  = Ok ("<" ++ tp_name (ob_type self) ++ "(" ++ listing (zip attrs rs) ++ ")>").
Proof.
  intros Hrs. unfold repr_. rewrite (collect_parts attrs self rs Hrs). simpl.
  rewrite join_listing. reflexivity.
Qed.
End ReprFacts.

(** C8, as stated, fails: the text is enclosed in angle brackets. *)
Lemma repr_has_angle_brackets :
  repr_ ab (instance_ab Type_ 5 0) = Ok "<Type(a=5, b=0)>"
  /\ repr_ ab (instance_ab Type_ 5 0) <> Ok "Type(a=5, b=0)".
Proof.
  split; [vm_compute; reflexivity|]. vm_compute. discriminate.
Qed.

(** C8 on the example. *)
Lemma repr_format_witness :
  Forall2 (fun a r => exists v, ob_dict (instance_ab Type_ 5 0) !! a = Some v
                                /\ py_repr v = Ok r) ab ["5"; "0"]
  /\ repr_ ab (instance_ab Type_ 5 0)
     = Ok ("<" ++ "Type" ++ "(" ++ listing (zip ab ["5"; "0"]) ++ ")>").
Proof.
  assert (Hrs : Forall2 (fun a r => exists v,
                           ob_dict (instance_ab Type_ 5 0) !! a = Some v
                           /\ py_repr v = Ok r) ab ["5"; "0"]).
  { constructor; [exists (PInt 5); split; reflexivity|].
    constructor; [exists (PInt 0); split; reflexivity|]. constructor. }
  split; [exact Hrs|].
  exact (repr_format ab (instance_ab Type_ 5 0) ["5"; "0"] Hrs).
Defined.

(** ** The generated text and its definition *)

(** The definition [init_def] prints to the text that [with_init] builds. *)
Lemma print_init_def {value} (attrs : list string) (defaults : gmap string value) :
  print_def (init_def attrs defaults) = source attrs defaults.
Proof.
  unfold print_def, init_def, source, args_with_defaults, args, assignments.
  cbn [def_args def_body print_arg arg_default arg_name].
  rewrite List.removelast_last, List.last_last. cbn [print_stmt].
  rewrite !map_map.
  assert (Hargs : map (fun x : string =>
                         print_arg (if bool_decide (is_Some (defaults !! x))
                                    then {| arg_name := x;
                                            arg_default := Some (DefaultsAt x) |}
                                    else {| arg_name := "attr"; arg_default := None |}))
                      attrs
                  = map (fun attr : string =>
                           if bool_decide (is_Some (defaults !! attr))
                           then attr ++ "=defaults[" ++ attr ++ "]"
                           else "attr") attrs).
  { apply map_ext. intros a. destruct (bool_decide (is_Some (defaults !! a))); reflexivity. }
  rewrite Hargs.
  assert (Hnames : map (fun x : string => print_expr (Name x)) attrs = attrs).
  { rewrite <- (List.map_id attrs) at 2. apply map_ext. reflexivity. }
  rewrite Hnames, !append_assoc. reflexivity.
Qed.

Example source_of_the_example :
  source ab (d_items b_is_0)
  = nl ++ "def init(self, attr, b=defaults[b]):" ++ nl
       ++ "    self.a = a" ++ nl
       ++ "    self.b = b" ++ nl
       ++ "    self.__original_init__(a, b)" ++ nl.
Proof. vm_compute. reflexivity. Qed.

(** ** The generated constructor at work *)

Section ConstructFacts.
Context {value : Type} `{PyValue value}.
Variable builtins : string -> option value.

Lemma collect_names (defaults : pydict value) (locals : gmap string value) attrs :
  collect (eval_expr builtins defaults locals) (map Name attrs)
  = collect (lookup_name builtins defaults locals) attrs.
Proof.
  induction attrs as [|a attrs IH]; simpl; [reflexivity|].
  rewrite IH. reflexivity.
Qed.

(** The assignments of the body, run one after the other, store the values
    the names evaluate to, unless one of the names is unbound. *)
Lemma run_assignments call cl defaults locals attrs rest (self : obj value) :
  run_body builtins call cl defaults locals
    (map (fun attr => AssignSelf attr (Name attr)) attrs ++ rest) self
  = (vs <- collect (lookup_name builtins defaults locals) attrs ;;
     run_body builtins call cl defaults locals rest (assign_all attrs vs self)).
Proof.
  revert self. induction attrs as [|a attrs IH]; intros self; simpl.
  - reflexivity.
  - destruct (lookup_name builtins defaults locals a) as [v|e]; simpl; [|reflexivity].
    rewrite IH.
    destruct (collect (lookup_name builtins defaults locals) attrs); reflexivity.
Qed.

Lemma assign_all_dict (f : string -> result value) attrs vs (self : obj value) a :
  Forall2 (fun a v => f a = Ok v) attrs vs ->
  (a ∈ attrs -> forall v, f a = Ok v -> ob_dict (assign_all attrs vs self) !! a = Some v)
  /\ (a ∉ attrs -> ob_dict (assign_all attrs vs self) !! a = ob_dict self !! a).
Proof.
  intros Hf. revert self.
  induction Hf as [|a0 v0 attrs vs Hav _ IH]; intros self; simpl.
  - split; [intros Hin; inversion Hin | reflexivity].
  - destruct (IH (setattr self a0 v0)) as [IHin IHout].
    destruct (decide (a ∈ attrs)) as [Hin|Hout].
    + split; [intros _; exact (IHin Hin) | intros Hn; exfalso; apply Hn; right; exact Hin].
    + split.
      * intros Ha v Hv. apply elem_of_cons in Ha as [->|Ha]; [|contradiction].
        rewrite (IHout Hout). simpl. rewrite lookup_insert_eq. congruence.
      * intros Hn. rewrite (IHout Hout). simpl.
        apply lookup_insert_ne. intros ->. apply Hn. left.
Qed.

Lemma assign_all_type attrs vs (self : obj value) :
  ob_type (assign_all attrs vs self) = ob_type self.
Proof.
  revert vs self. induction attrs as [|a attrs IH]; intros [|v vs] self; simpl;
    try reflexivity.
  rewrite IH. reflexivity.
Qed.

(** A call of the class made by [_make_wrap_init]: the arguments are bound,
    the attribute names are evaluated and assigned in order, and the
    initializer the class had before is called on the instance so far, with
    the assigned values as its positional arguments. *)
Lemma construct_wrapped fuel (defaults : pydict value) attrs fn (cl0 : pyclass value)
    self_ref pos kw :
  exec_init builtins defaults attrs = Ok fn ->
  construct builtins (S fuel) (_make_wrap_init fn cl0) self_ref pos kw
  = (locals <- bind_args (fn_params fn) (self_ref :: pos) kw ;;
     vs <- collect (lookup_name builtins defaults locals) attrs ;;
     if bool_decide ("__original_init__" ∈ attrs)
     then Raise (TypeError NotCallable)
     else call_init builtins fuel (_make_wrap_init fn cl0) self_ref (cl_init cl0)
            (assign_all attrs vs (new_instance (_make_wrap_init fn cl0))) vs []).
Proof.
  intros Hexec. unfold exec_init in Hexec.
  apply bind_ok in Hexec as (d & Hd & Hfn).
  assert (d = init_def attrs (d_items defaults)) as ->.
  { unfold compile in Hd.
    destruct (non_default_follows false (def_args (init_def attrs (d_items defaults))));
      [discriminate|].
    destruct (first_duplicate [] (def_args (init_def attrs (d_items defaults))));
      [discriminate|]. inversion Hd. reflexivity. }
  unfold make_function in Hfn.
  apply bind_ok in Hfn as (ps & _ & Hfn). inversion Hfn as [Efn]. clear Hfn.
  unfold construct. cbn [cl_init _make_wrap_init call_init fn_params fn_body fn_globals].
  destruct (bind_args ps (self_ref :: pos) kw) as [locals|e]; simpl; [|reflexivity].
  rewrite run_assignments.
  destruct (collect (lookup_name builtins defaults locals) attrs) as [vs|e] eqn:Hvs;
    simpl; [|reflexivity].
  set (cl := _make_wrap_init _ cl0).
  change (new_instance cl) with {| ob_type := cl_type cl0; ob_dict := (∅ : gmap string value) |}.
  set (inst := {| ob_type := cl_type cl0; ob_dict := (∅ : gmap string value) |}).
  apply collect_Forall2 in Hvs as Hf.
  destruct (assign_all_dict _ attrs vs inst "__original_init__" Hf) as [Hin Hout].
  destruct (decide ("__original_init__" ∈ attrs)) as [Ho|Ho].
  - rewrite bool_decide_eq_true_2 by exact Ho.
    assert (Hex : exists v, lookup_name builtins defaults locals "__original_init__" = Ok v).
    { clear -Hf Ho. induction Hf as [|a v attrs vs Hav _ IH]; [inversion Ho|].
      apply elem_of_cons in Ho as [->|Ho]; [eauto | exact (IH Ho)]. }
    destruct Hex as [v Hv]. rewrite (Hin Ho v Hv). reflexivity.
  - rewrite bool_decide_eq_false_2 by exact Ho.
    rewrite (Hout Ho). simpl. rewrite lookup_empty.
    rewrite collect_names, Hvs. simpl.
    destruct (call_init builtins fuel cl self_ref (cl_init cl0)
                (assign_all attrs vs inst) vs []); reflexivity.
Qed.
End ConstructFacts.

Section ConstructorComposition.
Context {value : Type} `{PyValue value}.
Variable builtins : string -> option value.
Variable fresh_dict : value.

(** In every call of an augmented class that succeeds, the arguments
    are bound to the parameters of the generated constructor, every attribute
    of [attrs] is assigned, in order and under its own name, the value its
    name evaluates to in the constructor, and only then the initializer the
    class had before is called, as [__original_init__], on the instance with
    these attributes, with the same values in the order of [attrs] as
    positional arguments; the instance it leaves is the constructed one. *)
Theorem init_assigns_then_calls_original attrs defaults wrap (cl0 : pyclass value)
    fuel self_ref pos kw (o : obj value) :
  with_init builtins fresh_dict attrs defaults = Ok wrap ->
  construct builtins fuel (wrap cl0) self_ref pos kw = Ok o ->
  exists fn locals vs fuel',
    wrap cl0 = _make_wrap_init fn cl0
    /\ cl_original_init (wrap cl0) = Some (cl_init cl0)
    /\ bind_args (fn_params fn) (self_ref :: pos) kw = Ok locals
    /\ Forall2 (fun a v =>
                  lookup_name builtins (defaults_or_empty fresh_dict defaults) locals a
                  = Ok v) attrs vs
    /\ (forall a, a ∈ attrs ->
          exists v,
            lookup_name builtins (defaults_or_empty fresh_dict defaults) locals a = Ok v
            /\ getattr (assign_all attrs vs (new_instance (wrap cl0))) a = Ok v)
    /\ fuel = S fuel'
    /\ call_init builtins fuel' (wrap cl0) self_ref (cl_init cl0)
         (assign_all attrs vs (new_instance (wrap cl0))) vs [] = Ok o.
Proof.
  intros Hw Hc. unfold with_init in Hw.
  apply bind_ok in Hw as (fn & Hfn & Hw). inversion Hw as [Ew]. clear Hw.
  subst wrap.
  destruct fuel as [|fuel']; [discriminate|].
  rewrite (construct_wrapped builtins fuel' _ attrs fn cl0 self_ref pos kw Hfn) in Hc.
  apply bind_ok in Hc as (locals & Hlocals & Hc).
  apply bind_ok in Hc as (vs & Hvs & Hc).
  destruct (bool_decide ("__original_init__" ∈ attrs)); [discriminate|].
  apply collect_Forall2 in Hvs as Hf.
  exists fn, locals, vs, fuel'. repeat split; try assumption; try reflexivity.
  intros a Ha.
  assert (Hex : exists v,
             lookup_name builtins (defaults_or_empty fresh_dict defaults) locals a = Ok v).
  { clear -Hf Ha. induction Hf as [|a0 v attrs vs Hav _ IH]; [inversion Ha|].
    apply elem_of_cons in Ha as [->|Ha]; [eauto | exact (IH Ha)]. }
  destruct Hex as [v Hv]. exists v. split; [exact Hv|].
  apply getattr_ok.
  exact (proj1 (assign_all_dict _ attrs vs _ a Hf) Ha v Hv).
Qed.
End ConstructorComposition.

(** On a class with the single attribute [attr], whose own initializer
    counts its arguments: the constructed instance has the attribute and the
    count. *)
Lemma init_assigns_then_calls_original_witness :
  with_init py_builtins dict_ref ["attr"] None = Ok (_make_wrap_init init_attr)
  /\ construct py_builtins 1 (_make_wrap_init init_attr (plain_class Type_ counting_init))
       instance_ref [PInt 5] []
     = Ok {| ob_type := Type_;
             ob_dict := <["count" := PInt 1]> (<["attr" := PInt 5]> ∅) |}
  /\ exists vs,
       Forall2 (fun a v => getattr
                  (assign_all ["attr"] vs
                     (new_instance (_make_wrap_init init_attr
                                      (plain_class Type_ counting_init)))) a = Ok v)
               ["attr"] vs
       /\ call_init py_builtins 0
            (_make_wrap_init init_attr (plain_class Type_ counting_init))
            instance_ref counting_init
            (assign_all ["attr"] vs
               (new_instance (_make_wrap_init init_attr
                                (plain_class Type_ counting_init)))) vs []
          = Ok {| ob_type := Type_;
                  ob_dict := <["count" := PInt 1]> (<["attr" := PInt 5]> ∅) |}.
Proof.
  assert (Hw : with_init py_builtins dict_ref ["attr"] None
               = Ok (_make_wrap_init init_attr)) by (vm_compute; reflexivity).
  assert (Hc : construct py_builtins 1
                 (_make_wrap_init init_attr (plain_class Type_ counting_init))
                 instance_ref [PInt 5] []
               = Ok {| ob_type := Type_;
                       ob_dict := <["count" := PInt 1]> (<["attr" := PInt 5]> ∅) |})
    by (vm_compute; reflexivity).
  split; [exact Hw|]. split; [exact Hc|].
  destruct (init_assigns_then_calls_original py_builtins dict_ref ["attr"] None
              (_make_wrap_init init_attr) (plain_class Type_ counting_init)
              1%nat instance_ref [PInt 5] [] _ Hw Hc)
    as (fn & locals & vs & fuel' & _ & _ & _ & Hf & Hget & Hfuel & Hcall).
  exists vs. split.
  - destruct vs as [|v [|v' vs]]; try (inversion Hf; fail).
    + constructor; [|constructor].
      destruct (Hget "attr") as (w & Hw1 & Hw2); [left|].
      inversion Hf as [|? ? ? ? Hv _]; subst.
      rewrite Hw2. congruence.
    + inversion Hf as [|? ? ? ? _ Hr]; subst. inversion Hr.
  - injection Hfuel as <-. exact Hcall.
Defined.

(** ** Defaults and required attributes in the generated constructor *)

Lemma collect_raises {A B} (f : A -> result B) (l : list A) (a : A) (e : exn) :
  a ∈ l -> f a = Raise e -> exists e', collect f l = Raise e'.
Proof.
  induction l as [|b l IH]; intros Ha Hf; [inversion Ha|].
  simpl. apply elem_of_cons in Ha as [<-|Ha].
  - rewrite Hf. eauto.
  - destruct (f b) as [x|e1]; simpl; [|eauto].
    destruct (IH Ha Hf) as [e' He']. rewrite He'. eauto.
Qed.

(** X12: an attribute with a default whose name is not a builtin makes
    [with_init] itself raise: the default expression [defaults[attr]] names
    a variable, not the string. *)
Lemma with_init_default_unbound {value} `{PyValue value}
    (builtins : string -> option value) (fresh_dict : value)
    (attrs : list string) (defaults : pydict value) (a : string) :
  a ∈ attrs -> is_Some (d_items defaults !! a) ->
  a <> "defaults" -> builtins a = None ->
  exists e, with_init builtins fresh_dict attrs (Some defaults) = Raise e.
Proof.
  intros Ha Hd Hn Hb. unfold with_init, exec_init. cbn [defaults_or_empty].
  destruct (compile (init_def attrs (d_items defaults))) as [d|e] eqn:Hc;
    simpl; [|eauto].
  assert (d = init_def attrs (d_items defaults)) as ->.
  { unfold compile in Hc.
    destruct (non_default_follows false _); [discriminate|].
    destruct (first_duplicate [] _); [discriminate|]. inversion Hc. reflexivity. }
  unfold make_function.
  destruct (collect_raises
              (fun a0 => match arg_default a0 with
                         | None => Ok (arg_name a0, None)
                         | Some e => v <- eval_expr builtins defaults ∅ e ;;
                                     Ok (arg_name a0, Some v)
                         end)
              (def_args (init_def attrs (d_items defaults)))
              {| arg_name := a; arg_default := Some (DefaultsAt a) |}
              (NameError a)) as [e' He'].
  - cbn [def_args init_def]. right. apply list_elem_of_fmap.
    exists a. split; [|exact Ha].
    rewrite bool_decide_eq_true_2 by exact Hd. reflexivity.
  - cbn [arg_default eval_expr]. unfold lookup_name, ns.
    rewrite !lookup_empty.
    rewrite bool_decide_eq_true_2 by reflexivity. simpl.
    rewrite bool_decide_eq_false_2 by exact Hn. rewrite Hb. reflexivity.
  - rewrite He'. simpl. eauto.
Qed.

(** C1 does not hold of the code.  For the attributes [a], [b] with the
    default [0] for [b], the text that [with_init] executes cannot be
    executed: its default expression [defaults[b]] reads a variable [b], so
    the decorator raises [NameError] and no constructor is made.  For the
    single required attribute [a] the constructor is made, with a parameter
    called [attr]: it rejects the keyword [a], and with a positional
    argument its body reads an unbound variable [a]. *)
Theorem defaults_example_fails_at_augmentation :
  with_init py_builtins dict_ref ab (Some b_is_0) = Raise (NameError "b")
  /\ attributes py_builtins dict_ref ab (Some b_is_0) (PBool true)
       (plain_class Type_ counting_init)
     = (with_cmp ab (with_repr ab (plain_class Type_ counting_init)),
        Some (NameError "b"))
  /\ with_init py_builtins dict_ref ["a"] None = Ok (_make_wrap_init init_a)
  /\ construct py_builtins 1 (_make_wrap_init init_a (plain_class Type_ counting_init))
       instance_ref [] [("a", PInt 5)]
     = Raise (TypeError (UnexpectedKeyword "a"))
  /\ construct py_builtins 1 (_make_wrap_init init_a (plain_class Type_ counting_init))
       instance_ref [PInt 5] []
     = Raise (NameError "a").
Proof. repeat split; vm_compute; reflexivity. Qed.

(** The names a call reports as missing are parameters without default, and
    in the generated constructor these are [self] and [attr] only, whatever
    the required attributes are called. *)
Lemma fill_defaults_missing {value} (params : list (string * option value))
    (locals : gmap string value) (x : string) :
  x ∈ snd (fill_defaults params locals) -> (x, None) ∈ params.
Proof.
  revert locals. induction params as [|[y d] params IH]; intros locals; simpl.
  - intros Hx. inversion Hx.
  - destruct (locals !! y) as [v|].
    + intros Hx. right. exact (IH _ Hx).
    + destruct d as [v|].
      * intros Hx. right. exact (IH _ Hx).
      * destruct (fill_defaults params locals) as [locals' missing] eqn:Hfd.
        simpl. intros Hx. apply elem_of_cons in Hx as [->|Hx]; [left|].
        right. apply (IH locals). rewrite Hfd. exact Hx.
Qed.

Lemma exec_init_required {value} `{PyValue value}
    (builtins : string -> option value) (defaults : pydict value)
    (attrs : list string) (fn : function value) (x : string) :
  exec_init builtins defaults attrs = Ok fn ->
  (x, None) ∈ fn_params fn -> x = "self" \/ x = "attr".
Proof.
  unfold exec_init. intros Hexec Hx.
  apply bind_ok in Hexec as (d & Hd & Hfn).
  assert (d = init_def attrs (d_items defaults)) as ->.
  { unfold compile in Hd.
    destruct (non_default_follows false _); [discriminate|].
    destruct (first_duplicate [] _); [discriminate|]. inversion Hd. reflexivity. }
  unfold make_function in Hfn. apply bind_ok in Hfn as (ps & Hps & Hfn).
  inversion Hfn; subst. clear Hfn. cbn [fn_params] in Hx.
  apply collect_Forall2 in Hps.
  assert (Hargs : exists a, a ∈ def_args (init_def attrs (d_items defaults))
                            /\ arg_name a = x /\ arg_default a = None).
  { clear -Hps Hx. induction Hps as [|a p l ps Hap _ IH]; [inversion Hx|].
    apply elem_of_cons in Hx as [<-|Hx].
    - exists a. split; [left|].
      destruct (arg_default a) as [e|]; [|inversion Hap; auto].
      destruct (eval_expr builtins defaults ∅ e); simpl in Hap; discriminate.
    - destruct (IH Hx) as (a' & Ha' & Hn).
      exists a'. split; [right; exact Ha' | exact Hn]. }
  destruct Hargs as (a & Ha & <- & Hnone).
  cbn [def_args init_def] in Ha. apply elem_of_cons in Ha as [->|Ha]; [left; reflexivity|].
  apply list_elem_of_fmap in Ha as (attr & -> & _).
  destruct (bool_decide (is_Some (d_items defaults !! attr)));
    [discriminate | right; reflexivity].
Qed.

(** X13: when a call of a generated constructor fails for missing
    arguments, the names it reports are among [self] and [attr]: never the
    name of a required attribute that is called otherwise. *)
Lemma missing_names_of_generated_init {value} `{PyValue value}
    (builtins : string -> option value) (defaults : pydict value)
    (attrs : list string) (fn : function value) pos kw (names : list string) :
  exec_init builtins defaults attrs = Ok fn ->
  bind_args (fn_params fn) pos kw = Raise (TypeError (MissingArguments names)) ->
  forall x, x ∈ names -> x = "self" \/ x = "attr".
Proof.
  intros Hexec Hb x Hx. apply (exec_init_required builtins defaults attrs fn x Hexec).
  unfold bind_args in Hb.
  destruct (bind_keywords (fn_params fn).*1 kw (list_to_map (zip (fn_params fn).*1 pos)))
    as [locals|e] eqn:Hk; simpl in Hb.
  - destruct (length (fn_params fn) <? length pos)%nat; [discriminate|].
    pose proof (fill_defaults_missing (fn_params fn) locals x) as Hm.
    destruct (fill_defaults (fn_params fn) locals) as [locals' [|m missing]];
      [discriminate|].
    inversion Hb; subst. exact (Hm Hx).
  - exfalso. clear -Hk Hb. inversion Hb; subst. clear Hb.
    revert Hk. generalize (list_to_map (zip (fn_params fn).*1 pos) : gmap string value).
    induction kw as [|[k v] kw IH]; intros locals Hk; simpl in Hk; [discriminate|].
    destruct (bool_decide (k ∈ (fn_params fn).*1)); [|discriminate].
    destruct (locals !! k); [discriminate|]. exact (IH _ Hk).
Qed.

(** C6 does not hold of the code.  The parameter of every required
    attribute is called [attr] (see [missing_names_of_generated_init]): a
    call that omits the required attribute [a]
    fails with a type error that names [attr]; two required attributes make
    the text a syntax error, and the example with a default fails before any
    call, as in C1. *)
Theorem missing_argument_is_named_attr :
  with_init py_builtins dict_ref ["a"] None = Ok (_make_wrap_init init_a)
  /\ construct py_builtins 1 (_make_wrap_init init_a (plain_class Type_ counting_init))
       instance_ref [] []
     = Raise (TypeError (MissingArguments ["attr"]))
  /\ with_init py_builtins dict_ref ab None
     = Raise (SyntaxError (DuplicateArgument "attr"))
  /\ with_init py_builtins dict_ref ab (Some b_is_0) = Raise (NameError "b").
Proof. repeat split; vm_compute; reflexivity. Qed.

(** ** The combined decorator *)

Section Attributes.
Context {value : Type} `{PyValue value}.
Variable builtins : string -> option value.
Variable fresh_dict : value.

Lemma with_init_is_wrap attrs defaults wrap :
  with_init builtins fresh_dict attrs defaults = Ok wrap ->
  exists fn, wrap = _make_wrap_init fn.
Proof.
  unfold with_init. intros Hw. apply bind_ok in Hw as (fn & _ & Hw).
  inversion Hw. eauto.
Qed.

(** C10: [attributes] always installs the comparison, hash and repr
    methods.  When [create_init] is not the object [True], whatever its
    truth value, the class is returned with the initializer it had and
    nothing is captured; only when [create_init] is [True] is [with_init]
    evaluated and, if it does not raise, its constructor installed over the
    captured initializer. *)
Theorem attributes_create_init attrs defaults (create_init : value) (cl : pyclass value) :
  let decorated := with_cmp attrs (with_repr attrs cl) in
  let after := fst (attributes builtins fresh_dict attrs defaults create_init cl) in
  (cl_eq after = Synthesized attrs /\ cl_ne after = Synthesized attrs
   /\ cl_lt after = Synthesized attrs /\ cl_le after = Synthesized attrs
   /\ cl_gt after = Synthesized attrs /\ cl_ge after = Synthesized attrs
   /\ cl_hash after = Synthesized attrs /\ cl_repr after = Synthesized attrs)
  /\ (py_is_True create_init = false ->
      attributes builtins fresh_dict attrs defaults create_init cl = (decorated, None)
      /\ cl_init after = cl_init cl
      /\ cl_original_init after = cl_original_init cl)
  /\ (py_is_True create_init = true ->
      match with_init builtins fresh_dict attrs defaults with
      | Ok wrap =>
          attributes builtins fresh_dict attrs defaults create_init cl
          = (wrap decorated, None)
          /\ (exists fn, cl_init after = SynthInit fn)
          /\ cl_original_init after = Some (cl_init cl)
      | Raise e =>
          attributes builtins fresh_dict attrs defaults create_init cl
          = (decorated, Some e)
      end).
Proof.
  cbv zeta. unfold attributes.
  destruct (py_is_True create_init).
  - destruct (with_init builtins fresh_dict attrs defaults) as [wrap|e] eqn:Hw.
    + destruct (with_init_is_wrap attrs defaults wrap Hw) as [fn ->].
      split; [repeat split|]. split; [discriminate|].
      intros _. split; [reflexivity|]. split; [exists fn|]; reflexivity.
    + split; [repeat split|]. split; [discriminate|]. intros _. reflexivity.
  - split; [repeat split|]. split; [|discriminate].
    intros _. repeat split.
Qed.
End Attributes.

(** C10 on the example: [1] and a non-empty string are true values, yet not
    [True], and leave the initializer of the class in place. *)
Lemma attributes_create_init_witness :
  (py_truthy (PInt 1) = true /\ py_is_True (PInt 1) = false)
  /\ (py_truthy (PStr "yes") = true /\ py_is_True (PStr "yes") = false)
  /\ attributes py_builtins dict_ref ["attr"] None (PInt 1)
       (plain_class Type_ counting_init)
     = (with_cmp ["attr"] (with_repr ["attr"] (plain_class Type_ counting_init)), None)
  /\ cl_init (fst (attributes py_builtins dict_ref ["attr"] None (PStr "yes")
                     (plain_class Type_ counting_init)))
     = counting_init.
Proof.
  split; [split; reflexivity|]. split; [split; reflexivity|]. split.
  - exact (proj1 (proj1 (proj2 (attributes_create_init py_builtins dict_ref
                                  ["attr"] None (PInt 1)
                                  (plain_class Type_ counting_init)))
                    Logic.eq_refl)).
  - exact (proj1 (proj2 (proj1 (proj2 (attributes_create_init py_builtins dict_ref
                                  ["attr"] None (PStr "yes")
                                  (plain_class Type_ counting_init)))
                    Logic.eq_refl))).
Defined.

Example attributes_with_True :
  attributes py_builtins dict_ref ["attr"] None (PBool true)
    (plain_class Type_ counting_init)
  = (_make_wrap_init init_attr
       (with_cmp ["attr"] (with_repr ["attr"] (plain_class Type_ counting_init))),
     None).
Proof. vm_compute. reflexivity. Qed.

(** * Further properties of the synthesized methods *)

(** ** Missing attributes *)

Lemma collect_first_raise {A B} (f : A -> result B) (pre post : list A) (a : A) (e : exn) :
  Forall (fun b => exists v, f b = Ok v) pre ->
  f a = Raise e ->
  collect f (pre ++ a :: post) = Raise e.
Proof.
  intros Hpre Ha. induction Hpre as [|b pre [v Hv] _ IH]; simpl.
  - rewrite Ha. reflexivity.
  - rewrite Hv. simpl. rewrite IH. reflexivity.
Qed.

Section MissingAttribute.
Context {value : Type} `{PyValue value}.

Lemma attrs_to_tuple_missing (pre post : list string) a (o : obj value) :
  Forall (fun b => is_Some (ob_dict o !! b)) pre ->
  ob_dict o !! a = None ->
  attrs_to_tuple (pre ++ a :: post) o = Raise (AttributeError a).
Proof.
  intros Hpre Ha. unfold attrs_to_tuple. apply collect_first_raise.
  - eapply Forall_impl; [exact Hpre|]. intros b [v Hv]. exists v.
    apply getattr_ok. exact Hv.
  - unfold getattr. rewrite Ha. reflexivity.
Qed.

(** X1: when [self] lacks an attribute, every comparison with an instance
    of its class raises [AttributeError] for the first attribute of the list
    that is missing, whatever the other operand holds, and so does
    [hash_]. *)
Theorem missing_attribute_of_self_raises (pre post : list string) a
    (self other : obj value) (combine : list Z -> Z) :
  Forall (fun b => is_Some (ob_dict self !! b)) pre ->
  ob_dict self !! a = None ->
  isinstance other (ob_type self) = true ->
  Forall (fun op => op self other = Raise (AttributeError a))
         (comparisons (pre ++ a :: post))
  /\ hash_ (pre ++ a :: post) combine self = Raise (AttributeError a).
Proof.
  intros Hpre Ha Hi.
  pose proof (attrs_to_tuple_missing pre post a self Hpre Ha) as Ht.
  assert (Hop : forall op,
             compare_with (pre ++ a :: post) op self other = Raise (AttributeError a)).
  { intros op. unfold compare_with. rewrite Hi, Ht. reflexivity. }
  split.
  - unfold comparisons.
    repeat (apply Forall_cons; split);
      try (rewrite ?ne_of_eq, ?eq_compare_with, ?lt_compare_with, ?le_compare_with,
             ?gt_compare_with, ?ge_compare_with, Hop; reflexivity).
    apply Forall_nil. exact I.
  - unfold hash_. rewrite Ht. reflexivity.
Qed.

(** X2: when [self] has every attribute and the other operand, an instance
    of its class, lacks one, every comparison raises [AttributeError] for
    the first attribute the other operand is missing. *)
Theorem missing_attribute_of_other_raises (pre post : list string) a
    (self other : obj value) (t : list value) :
  value_tuple (pre ++ a :: post) self t ->
  Forall (fun b => is_Some (ob_dict other !! b)) pre ->
  ob_dict other !! a = None ->
  isinstance other (ob_type self) = true ->
  Forall (fun op => op self other = Raise (AttributeError a))
         (comparisons (pre ++ a :: post)).
Proof.
  intros Hself Hpre Ha Hi.
  apply attrs_to_tuple_ok in Hself.
  pose proof (attrs_to_tuple_missing pre post a other Hpre Ha) as Ht.
  assert (Hop : forall op,
             compare_with (pre ++ a :: post) op self other = Raise (AttributeError a)).
  { intros op. unfold compare_with. rewrite Hi, Hself, Ht. reflexivity. }
  unfold comparisons.
  repeat (apply Forall_cons; split);
    try (rewrite ?ne_of_eq, ?eq_compare_with, ?lt_compare_with, ?le_compare_with,
           ?gt_compare_with, ?ge_compare_with, Hop; reflexivity).
  apply Forall_nil. exact I.
Qed.
End MissingAttribute.

(** X1 on the example: an instance without [b]. *)
Lemma missing_attribute_of_self_raises_witness :
  (Forall (fun b => is_Some (ob_dict (instance_a_only Type_ 1) !! b)) ["a"]
   /\ ob_dict (instance_a_only Type_ 1) !! "b" = None
   /\ isinstance (instance_ab Type_ 1 2) (ob_type (instance_a_only Type_ 1)) = true)
  /\ Forall (fun op => op (instance_a_only Type_ 1) (instance_ab Type_ 1 2)
                       = Raise (AttributeError "b")) (comparisons ab)
  /\ hash_ ab tuple_combine (instance_a_only Type_ 1) = Raise (AttributeError "b").
Proof.
  assert (Hpre : Forall (fun b => is_Some (ob_dict (instance_a_only Type_ 1) !! b)) ["a"]).
  { constructor; [exists (PInt 1); reflexivity | constructor]. }
  split; [split; [exact Hpre | split; reflexivity]|].
  exact (missing_attribute_of_self_raises ["a"] [] "b" (instance_a_only Type_ 1)
           (instance_ab Type_ 1 2) tuple_combine Hpre Logic.eq_refl Logic.eq_refl).
Defined.

(** X2 on the example. *)
Lemma missing_attribute_of_other_raises_witness :
  (value_tuple ab (instance_ab Type_ 1 2) [PInt 1; PInt 2]
   /\ Forall (fun b => is_Some (ob_dict (instance_a_only Type_ 1) !! b)) ["a"]
   /\ ob_dict (instance_a_only Type_ 1) !! "b" = None
   /\ isinstance (instance_a_only Type_ 1) (ob_type (instance_ab Type_ 1 2)) = true)
  /\ Forall (fun op => op (instance_ab Type_ 1 2) (instance_a_only Type_ 1)
                       = Raise (AttributeError "b")) (comparisons ab).
Proof.
  assert (Hself : value_tuple ab (instance_ab Type_ 1 2) [PInt 1; PInt 2])
    by (repeat constructor).
  assert (Hpre : Forall (fun b => is_Some (ob_dict (instance_a_only Type_ 1) !! b)) ["a"]).
  { constructor; [exists (PInt 1); reflexivity | constructor]. }
  split; [split; [exact Hself | split; [exact Hpre | split; reflexivity]]|].
  exact (missing_attribute_of_other_raises ["a"] [] "b" (instance_ab Type_ 1 2)
           (instance_a_only Type_ 1) [PInt 1; PInt 2] Hself Hpre
           Logic.eq_refl Logic.eq_refl).
Defined.

(** ** Only the listed attributes matter *)

Section ListedAttributes.
Context {value : Type} `{PyValue value}.

Lemma attrs_to_tuple_agree attrs (x x' : obj value) :
  (forall a, a ∈ attrs -> ob_dict x !! a = ob_dict x' !! a) ->
  attrs_to_tuple attrs x = attrs_to_tuple attrs x'.
Proof.
  unfold attrs_to_tuple. induction attrs as [|a attrs IH]; intros Hag; simpl.
  - reflexivity.
  - unfold getattr at 1 3. rewrite (Hag a) by left.
    rewrite IH; [reflexivity|]. intros b Hb. apply Hag. right. exact Hb.
Qed.

Lemma compare_with_agree attrs op (x x' y : obj value) :
  (forall a, a ∈ attrs -> ob_dict x !! a = ob_dict x' !! a) ->
  ob_type x = ob_type x' ->
  compare_with attrs op x y = compare_with attrs op x' y
  /\ compare_with attrs op y x = compare_with attrs op y x'.
Proof.
  intros Hag Ht. unfold compare_with, isinstance.
  rewrite (attrs_to_tuple_agree attrs x x' Hag), Ht. split; reflexivity.
Qed.

(** X3: the synthesized methods read no attribute outside the list.  Two
    instances of one class that agree on the listed attributes are
    interchangeable as either operand of every comparison, and hash alike;
    other attributes, set or changed at any time, are never looked at. *)
Theorem only_listed_attributes_matter attrs (x x' y : obj value) (combine : list Z -> Z) :
  (forall a, a ∈ attrs -> ob_dict x !! a = ob_dict x' !! a) ->
  ob_type x = ob_type x' ->
  Forall (fun op => op x y = op x' y /\ op y x = op y x') (comparisons attrs)
  /\ hash_ attrs combine x = hash_ attrs combine x'
  /\ repr_ attrs x = repr_ attrs x'.
Proof.
  intros Hag Ht.
  assert (Hop : forall op,
             compare_with attrs op x y = compare_with attrs op x' y
             /\ compare_with attrs op y x = compare_with attrs op y x')
    by (intros op; apply compare_with_agree; assumption).
  split; [|split].
  - unfold comparisons.
    repeat apply List.Forall_cons; try apply List.Forall_nil;
      rewrite ?ne_of_eq, ?eq_compare_with, ?lt_compare_with, ?le_compare_with,
        ?gt_compare_with, ?ge_compare_with;
      split; first [apply Hop | rewrite (proj1 (Hop _)) | rewrite (proj2 (Hop _))];
      reflexivity.
  - unfold hash_. rewrite (attrs_to_tuple_agree attrs x x' Hag). reflexivity.
  - unfold repr_. rewrite Ht. f_equal.
    clear -Hag. induction attrs as [|a attrs IH]; simpl; [reflexivity|].
    unfold getattr at 1 3. rewrite (Hag a) by left.
    rewrite IH; [reflexivity|]. intros b Hb. apply Hag. right. exact Hb.
Qed.
End ListedAttributes.

(** X3 on the example: an extra attribute [c] changes nothing. *)
Lemma only_listed_attributes_matter_witness :
  ((forall a, a ∈ ab ->
      ob_dict (setattr (instance_ab Type_ 1 2) "c" PNone) !! a
      = ob_dict (instance_ab Type_ 1 2) !! a)
   /\ ob_type (setattr (instance_ab Type_ 1 2) "c" PNone)
      = ob_type (instance_ab Type_ 1 2))
  /\ Forall (fun op =>
               op (setattr (instance_ab Type_ 1 2) "c" PNone) (instance_ab Type_ 1 3)
               = op (instance_ab Type_ 1 2) (instance_ab Type_ 1 3)
               /\ op (instance_ab Type_ 1 3) (setattr (instance_ab Type_ 1 2) "c" PNone)
                  = op (instance_ab Type_ 1 3) (instance_ab Type_ 1 2))
            (comparisons ab)
  /\ hash_ ab tuple_combine (setattr (instance_ab Type_ 1 2) "c" PNone)
     = hash_ ab tuple_combine (instance_ab Type_ 1 2)
  /\ repr_ ab (setattr (instance_ab Type_ 1 2) "c" PNone)
     = repr_ ab (instance_ab Type_ 1 2).
Proof.
  assert (Hag : forall a, a ∈ ab ->
                  ob_dict (setattr (instance_ab Type_ 1 2) "c" PNone) !! a
                  = ob_dict (instance_ab Type_ 1 2) !! a).
  { intros a Ha. unfold ab in Ha.
    apply elem_of_cons in Ha as [->|Ha]; [reflexivity|].
    apply elem_of_cons in Ha as [->|Ha]; [reflexivity|]. inversion Ha. }
  split; [split; [exact Hag | reflexivity]|].
  exact (only_listed_attributes_matter ab _ _ (instance_ab Type_ 1 3) tuple_combine
           Hag Logic.eq_refl).
Defined.

(** ** Equality laws *)

Section EqualityLaws.
Context {value : Type} `{PyValue value}.

Lemma same_items_refl (t : list value) :
  Forall (fun v => py_same v v = Ok true) t -> same_items t t.
Proof.
  induction 1 as [|v t Hv _ IH]; constructor; assumption.
Qed.

(** X4: an instance whose attribute values are each the same as themselves
    (the item test of a tuple starts with identity) is equal to itself:
    [eq], [le] and [ge] are true and [ne], [lt] and [gt] are false. *)
Theorem instance_equals_itself attrs (x : obj value) (t : list value) :
  value_tuple attrs x t ->
  Forall (fun v => py_same v v = Ok true) t ->
  eq attrs x x = Ok (Bool true) /\ ne attrs x x = Ok (Bool false)
  /\ lt attrs x x = Ok (Bool false) /\ le attrs x x = Ok (Bool true)
  /\ gt attrs x x = Ok (Bool false) /\ ge attrs x x = Ok (Bool true).
Proof.
  intros Hx Hrefl. apply same_items_refl in Hrefl.
  rewrite ne_of_eq, eq_compare_with, lt_compare_with, le_compare_with,
    gt_compare_with, ge_compare_with.
  rewrite !(compare_with_same_type attrs _ x x t t Logic.eq_refl Hx Hx).
  rewrite !(tuple_richcompare_same _ _ _ Hrefl). simpl.
  rewrite Nat.eqb_refl, Nat.ltb_irrefl, Nat.leb_refl. repeat split; reflexivity.
Qed.

Lemma same_items_sym (t1 t2 : list value) :
  (forall v w : value, py_same v w = Ok true -> py_same w v = Ok true) ->
  same_items t1 t2 -> same_items t2 t1.
Proof.
  intros Hsym. induction 1 as [|v w t1 t2 Hvw _ IH]; constructor; auto.
Qed.

(** X5: between two instances of one class, equality is symmetric whenever
    the equality of the attribute values is; the same holds across classes
    only when each class derives from the other's, as [eq] asks whether the
    other operand is an instance of the class of [self]. *)
Theorem eq_symmetric attrs (x y : obj value) :
  (forall v w : value, py_same v w = Ok true -> py_same w v = Ok true) ->
  isinstance x (ob_type y) = true ->
  eq attrs x y = Ok (Bool true) ->
  eq attrs y x = Ok (Bool true) /\ ne attrs y x = Ok (Bool false).
Proof.
  intros Hsym Hi He. rewrite ne_of_eq. unfold eq in *. rewrite Hi.
  destruct (isinstance y (ob_type x)); [|discriminate].
  destruct (attrs_to_tuple attrs x) as [t1|]; simpl in He; [|discriminate].
  destruct (attrs_to_tuple attrs y) as [t2|]; simpl in He; [|discriminate].
  destruct (tuple_richcompare Py_EQ t1 t2) as [[|]|] eqn:Ht; simpl in He;
    try discriminate.
  apply tuple_eq_true in Ht. apply (same_items_sym _ _ Hsym) in Ht.
  apply tuple_eq_true in Ht. simpl. rewrite Ht. split; reflexivity.
Qed.
End EqualityLaws.

(** X4 on the example. *)
Lemma instance_equals_itself_witness :
  (value_tuple ab (instance_ab Type_ 1 2) [PInt 1; PInt 2]
   /\ Forall (fun v => py_same v v = Ok true) [PInt 1; PInt 2])
  /\ eq ab (instance_ab Type_ 1 2) (instance_ab Type_ 1 2) = Ok (Bool true)
  /\ ne ab (instance_ab Type_ 1 2) (instance_ab Type_ 1 2) = Ok (Bool false)
  /\ lt ab (instance_ab Type_ 1 2) (instance_ab Type_ 1 2) = Ok (Bool false)
  /\ le ab (instance_ab Type_ 1 2) (instance_ab Type_ 1 2) = Ok (Bool true)
  /\ gt ab (instance_ab Type_ 1 2) (instance_ab Type_ 1 2) = Ok (Bool false)
  /\ ge ab (instance_ab Type_ 1 2) (instance_ab Type_ 1 2) = Ok (Bool true).
Proof.
  assert (Hx : value_tuple ab (instance_ab Type_ 1 2) [PInt 1; PInt 2])
    by (repeat constructor).
  assert (Hr : Forall (fun v => py_same v v = Ok true) [PInt 1; PInt 2])
    by (repeat constructor).
  split; [split; assumption|].
  exact (instance_equals_itself ab (instance_ab Type_ 1 2) [PInt 1; PInt 2] Hx Hr).
Defined.

(** X5 on the example: [True] and [1] in either order. *)
Lemma eq_symmetric_witness :
  ((forall v w : pyval, py_same v w = Ok true -> py_same w v = Ok true)
   /\ isinstance (instance_of Type_ (PBool true) (PInt 0))
        (ob_type (instance_ab Type_ 1 0)) = true
   /\ eq ab (instance_of Type_ (PBool true) (PInt 0)) (instance_ab Type_ 1 0)
      = Ok (Bool true))
  /\ eq ab (instance_ab Type_ 1 0) (instance_of Type_ (PBool true) (PInt 0))
     = Ok (Bool true)
  /\ ne ab (instance_ab Type_ 1 0) (instance_of Type_ (PBool true) (PInt 0))
     = Ok (Bool false).
Proof.
  assert (Hsym : forall v w : pyval, py_same v w = Ok true -> py_same w v = Ok true).
  { simpl. intros v w Hvw. apply Ok_inj in Hvw. f_equal.
    apply pyval_eq_true in Hvw as [Hn Hs].
    destruct (as_number v) as [n|] eqn:Hv.
    - apply (pyval_eq_of_number w v n); congruence.
    - rewrite Hs by reflexivity. apply pyval_eq_refl. }
  split; [split; [exact Hsym | split; vm_compute; reflexivity]|].
  apply (eq_symmetric ab (instance_of Type_ (PBool true) (PInt 0))
           (instance_ab Type_ 1 0) Hsym); vm_compute; reflexivity.
Defined.

(** ** Hashing and hashability *)

Section Hashing.
Context {value : Type} `{PyValue value}.

(** X6: the hash of an instance is the combination of the hashes of its
    attribute values, in the order of the attribute list; when some value
    cannot be hashed, [hash_] raises what the first such value raises. *)
Theorem hash_of_value_tuple attrs (x : obj value) (t : list value) (combine : list Z -> Z) :
  value_tuple attrs x t ->
  (forall hs, Forall2 (fun v h => py_hash v = Ok h) t hs ->
              hash_ attrs combine x = Ok (combine hs))
  /\ (forall pre v post e,
        t = (pre ++ v :: post)%list ->
        Forall (fun u => exists h, py_hash u = Ok h) pre ->
        py_hash v = Raise e ->
        hash_ attrs combine x = Raise e).
Proof.
  intros Hx. apply attrs_to_tuple_ok in Hx. unfold hash_, tuple_hash.
  rewrite Hx. simpl. split.
  - intros hs Hhs. apply collect_Forall2 in Hhs. rewrite Hhs. reflexivity.
  - intros pre v post e -> Hpre Hv.
    rewrite (collect_first_raise py_hash pre post v e Hpre Hv). reflexivity.
Qed.
End Hashing.

Section NoHashNeeded.
Context {value : Type}.
Variables P Q : PyValue value.
Hypothesis same_agree : forall v w : value, @py_same value P v w = @py_same value Q v w.
Hypothesis richcmp_agree : forall op (v w : value),
  @py_richcmp value P op v w = @py_richcmp value Q op v w.

Lemma tuple_richcompare_agree op (t1 t2 : list value) :
  @tuple_richcompare value P op t1 t2 = @tuple_richcompare value Q op t1 t2.
Proof.
  revert t2. induction t1 as [|v t1 IH]; intros [|w t2]; simpl; try reflexivity.
  rewrite same_agree. destruct (@py_same value Q v w) as [[|]|]; simpl;
    try reflexivity.
  - apply IH.
  - destruct op; try reflexivity; apply richcmp_agree.
Qed.

Lemma compare_with_agree_protocol attrs op (x y : obj value) :
  @compare_with value P attrs op x y = @compare_with value Q attrs op x y.
Proof.
  unfold compare_with. destruct (isinstance y (ob_type x)); [|reflexivity].
  destruct (attrs_to_tuple attrs x) as [t1|]; simpl; [|reflexivity].
  destruct (attrs_to_tuple attrs y) as [t2|]; simpl; [|reflexivity].
  rewrite tuple_richcompare_agree. reflexivity.
Qed.

(** X7: the comparisons use the equality and the ordering of the attribute
    values and nothing else of their protocol: two protocols that agree on
    these give the same six comparisons, so instances holding values that
    cannot be hashed or printed compare as usual. *)
Theorem comparisons_need_no_hash attrs (x y : obj value) :
  Forall2 (fun f g => f x y = g x y)
          (@comparisons value P attrs) (@comparisons value Q attrs).
Proof.
  unfold comparisons.
  repeat apply List.Forall2_cons; try apply List.Forall2_nil;
    rewrite ?(@ne_of_eq value P), ?(@ne_of_eq value Q),
      ?(@eq_compare_with value P), ?(@eq_compare_with value Q),
      ?(@lt_compare_with value P), ?(@lt_compare_with value Q),
      ?(@le_compare_with value P), ?(@le_compare_with value Q),
      ?(@gt_compare_with value P), ?(@gt_compare_with value Q),
      ?(@ge_compare_with value P), ?(@ge_compare_with value Q),
      compare_with_agree_protocol; reflexivity.
Qed.
End NoHashNeeded.

(** X6 on the example: the hash of (1, 2), and an instance holding a value
    that cannot be hashed. *)
Lemma hash_of_value_tuple_witness :
  value_tuple ab (instance_ab Type_ 1 2) [PInt 1; PInt 2]
  /\ Forall2 (fun v h => py_hash v = Ok h) [PInt 1; PInt 2] [1; 2]
  /\ hash_ ab tuple_combine (instance_ab Type_ 1 2) = Ok (tuple_combine [1; 2])
  /\ @hash_ pyval unhashable_protocol ab tuple_combine (instance_ab Type_ 1 2)
     = Raise (UserError "unhashable type").
Proof.
  assert (Hx : value_tuple ab (instance_ab Type_ 1 2) [PInt 1; PInt 2])
    by (repeat constructor).
  assert (Hh : Forall2 (fun v h => py_hash v = Ok h) [PInt 1; PInt 2] [1; 2])
    by (repeat constructor).
  split; [exact Hx|]. split; [exact Hh|]. split.
  - exact (proj1 (hash_of_value_tuple ab (instance_ab Type_ 1 2) [PInt 1; PInt 2]
                    tuple_combine Hx) [1; 2] Hh).
  - apply (proj2 (@hash_of_value_tuple pyval unhashable_protocol ab
                    (instance_ab Type_ 1 2) [PInt 1; PInt 2] tuple_combine Hx)
             [] (PInt 1) [PInt 2] (UserError "unhashable type"));
      [reflexivity | constructor | reflexivity].
Defined.

(** X7 on the example: values that cannot be hashed compare as the
    hashable ones do. *)
Lemma comparisons_need_no_hash_witness :
  ((forall v w : pyval,
      @py_same pyval unhashable_protocol v w = @py_same pyval pyval_value v w)
   /\ (forall op (v w : pyval),
         @py_richcmp pyval unhashable_protocol op v w
         = @py_richcmp pyval pyval_value op v w))
  /\ Forall2 (fun f g => f (instance_ab Type_ 1 2) (instance_ab Type_ 1 3)
                         = g (instance_ab Type_ 1 2) (instance_ab Type_ 1 3))
             (@comparisons pyval unhashable_protocol ab)
             (@comparisons pyval pyval_value ab).
Proof.
  split; [split; reflexivity|].
  exact (comparisons_need_no_hash unhashable_protocol pyval_value
           (fun v w => Logic.eq_refl) (fun op v w => Logic.eq_refl) ab
           (instance_ab Type_ 1 2) (instance_ab Type_ 1 3)).
Defined.

(** * Further properties of the generated constructor *)

Lemma compile_ok (d d' : funcdef) :
  compile d = Ok d' ->
  d' = d /\ non_default_follows false (def_args d) = false
  /\ first_duplicate [] (def_args d) = None.
Proof.
  unfold compile. intros Hc.
  destruct (non_default_follows false (def_args d)); [discriminate|].
  destruct (first_duplicate [] (def_args d)); [discriminate|].
  inversion Hc. auto.
Qed.

Section GeneratedCall.
Context {value : Type} `{PyValue value}.
Variable builtins : string -> option value.

Lemma exec_init_body (defaults : pydict value) attrs (fn : function value) :
  exec_init builtins defaults attrs = Ok fn ->
  fn_body fn = def_body (init_def attrs (d_items defaults))
  /\ fn_globals fn = defaults.
Proof.
  unfold exec_init. intros Hexec.
  apply bind_ok in Hexec as (d & Hd & Hfn).
  apply compile_ok in Hd as (-> & _ & _).
  unfold make_function in Hfn. apply bind_ok in Hfn as (ps & _ & Hfn).
  inversion Hfn. split; reflexivity.
Qed.

(** A call of a generated constructor, on any class and any instance. *)
Lemma call_generated fuel (defaults : pydict value) attrs fn (cl : pyclass value)
    self_ref (self : obj value) pos kw :
  exec_init builtins defaults attrs = Ok fn ->
  call_init builtins (S fuel) cl self_ref (SynthInit fn) self pos kw
  = (locals <- bind_args (fn_params fn) (self_ref :: pos) kw ;;
     vs <- collect (lookup_name builtins defaults locals) attrs ;;
     match ob_dict (assign_all attrs vs self) !! "__original_init__" with
     | Some _ => Raise (TypeError NotCallable)
     | None =>
         match cl_original_init cl with
         | None => Raise (AttributeError "__original_init__")
         | Some original =>
             call_init builtins fuel cl self_ref original
               (assign_all attrs vs self) vs []
         end
     end).
Proof.
  intros Hexec. destruct (exec_init_body defaults attrs fn Hexec) as [Hbody Hglob].
  cbn [call_init]. rewrite Hbody, Hglob. cbn [def_body init_def].
  destruct (bind_args (fn_params fn) (self_ref :: pos) kw) as [locals|e]; simpl;
    [|reflexivity].
  rewrite run_assignments.
  destruct (collect (lookup_name builtins defaults locals) attrs) as [vs|e] eqn:Hvs;
    simpl; [|reflexivity].
  destruct (ob_dict (assign_all attrs vs self) !! "__original_init__");
    [reflexivity|].
  destruct (cl_original_init cl) as [original|]; [|reflexivity].
  rewrite collect_names, Hvs. simpl.
  destruct (call_init builtins fuel cl self_ref original
              (assign_all attrs vs self) vs []); reflexivity.
Qed.

(** Once the captured initializer of a class is itself a generated
    constructor, calling it never ends: each call looks up
    [__original_init__] on the class and finds the same function again. *)
Lemma captured_generated_never_returns fuel (defaults : pydict value) attrs fn
    (cl : pyclass value) self_ref (self : obj value) pos kw (o : obj value) :
  exec_init builtins defaults attrs = Ok fn ->
  cl_original_init cl = Some (SynthInit fn) ->
  call_init builtins fuel cl self_ref (SynthInit fn) self pos kw <> Ok o.
Proof.
  intros Hexec Horig. revert self pos kw.
  induction fuel as [|fuel IH]; intros self pos kw; [discriminate|].
  rewrite (call_generated fuel defaults attrs fn cl self_ref self pos kw Hexec).
  destruct (bind_args (fn_params fn) (self_ref :: pos) kw) as [locals|e]; simpl;
    [|discriminate].
  destruct (collect (lookup_name builtins defaults locals) attrs) as [vs|e]; simpl;
    [|discriminate].
  destruct (ob_dict (assign_all attrs vs self) !! "__original_init__");
    [discriminate|].
  rewrite Horig. apply IH.
Qed.
End GeneratedCall.

Section DoubleAugmentation.
Context {value : Type} `{PyValue value}.
Variable builtins : string -> option value.
Variable fresh_dict : value.

Lemma with_init_ok attrs defaults wrap :
  with_init builtins fresh_dict attrs defaults = Ok wrap ->
  exists fn,
    exec_init builtins (defaults_or_empty fresh_dict defaults) attrs = Ok fn
    /\ wrap = _make_wrap_init fn.
Proof.
  unfold with_init. intros Hw. apply bind_ok in Hw as (fn & Hfn & Hw).
  inversion Hw. eauto.
Qed.

(** X8: a class augmented twice by [with_init] can no longer be
    instantiated.  The second application captures the first generated
    constructor as [__original_init__], over the initializer captured
    before: whatever the arguments and the recursion limit, no call of the
    class returns an instance. *)
Theorem double_with_init_never_constructs attrs1 defaults1 wrap1 attrs2 defaults2 wrap2
    (cl0 : pyclass value) fuel self_ref pos kw (o : obj value) :
  with_init builtins fresh_dict attrs1 defaults1 = Ok wrap1 ->
  with_init builtins fresh_dict attrs2 defaults2 = Ok wrap2 ->
  cl_original_init (wrap2 (wrap1 cl0)) = Some (cl_init (wrap1 cl0))
  /\ construct builtins fuel (wrap2 (wrap1 cl0)) self_ref pos kw <> Ok o.
Proof.
  intros H1 H2.
  apply with_init_ok in H1 as (fn1 & Hfn1 & ->).
  apply with_init_ok in H2 as (fn2 & Hfn2 & ->).
  split; [reflexivity|].
  unfold construct. cbn [cl_init _make_wrap_init].
  destruct fuel as [|fuel]; [discriminate|].
  rewrite (call_generated builtins fuel _ attrs2 fn2 _ self_ref _ pos kw Hfn2).
  destruct (bind_args (fn_params fn2) (self_ref :: pos) kw) as [locals|e]; simpl;
    [|discriminate].
  destruct (collect _ attrs2) as [vs|e]; simpl; [|discriminate].
  destruct (ob_dict _ !! "__original_init__"); [discriminate|].
  eapply captured_generated_never_returns; [exact Hfn1 | reflexivity].
Qed.
End DoubleAugmentation.

(** X8 on the example: the class with the attribute [attr], augmented
    twice. *)
Lemma double_with_init_never_constructs_witness :
  (with_init py_builtins dict_ref ["attr"] None = Ok (_make_wrap_init init_attr)
   /\ with_init py_builtins dict_ref ["attr"] None = Ok (_make_wrap_init init_attr))
  /\ cl_original_init (_make_wrap_init init_attr
                         (_make_wrap_init init_attr (plain_class Type_ counting_init)))
     = Some (SynthInit init_attr)
  /\ construct py_builtins 50
       (_make_wrap_init init_attr
          (_make_wrap_init init_attr (plain_class Type_ counting_init)))
       instance_ref [PInt 5] []
     <> Ok {| ob_type := Type_;
              ob_dict := <["count" := PInt 1]> (<["attr" := PInt 5]> ∅) |}.
Proof.
  assert (Hw : with_init py_builtins dict_ref ["attr"] None
               = Ok (_make_wrap_init init_attr)) by (vm_compute; reflexivity).
  split; [split; exact Hw|].
  exact (double_with_init_never_constructs py_builtins dict_ref
           ["attr"] None (_make_wrap_init init_attr)
           ["attr"] None (_make_wrap_init init_attr)
           (plain_class Type_ counting_init) 50%nat instance_ref [PInt 5] [] _ Hw Hw).
Defined.

Example double_with_init_recursion_error :
  construct py_builtins 50
    (_make_wrap_init init_attr
       (_make_wrap_init init_attr (plain_class Type_ counting_init)))
    instance_ref [PInt 5] []
  = Raise RecursionError.
Proof. vm_compute. reflexivity. Qed.

(** ** Which attribute lists give a constructor *)

Lemma non_default_follows_true (l : list argdecl) (x : argdecl) :
  x ∈ l -> arg_default x = None -> non_default_follows true l = true.
Proof.
  induction l as [|y l IH]; intros Hx Hd; [inversion Hx|].
  simpl. apply elem_of_cons in Hx as [<-|Hx].
  - rewrite Hd. reflexivity.
  - destruct (arg_default y); [exact (IH Hx Hd) | reflexivity].
Qed.

Lemma non_default_follows_after (seen : bool) (l1 l2 : list argdecl) (d x : argdecl) :
  is_Some (arg_default d) -> x ∈ l2 -> arg_default x = None ->
  non_default_follows seen (l1 ++ d :: l2) = true.
Proof.
  intros [e Hd] Hx Hn. revert seen.
  induction l1 as [|y l1 IH]; intros seen; simpl.
  - rewrite Hd. exact (non_default_follows_true l2 x Hx Hn).
  - destruct (arg_default y); [apply IH|].
    rewrite IH. apply orb_true_r.
Qed.

Lemma first_duplicate_none (seen : list string) (l : list argdecl) :
  first_duplicate seen l = None ->
  NoDup (map arg_name l) /\ (forall x, x ∈ l -> arg_name x ∉ seen).
Proof.
  revert seen. induction l as [|a l IH]; intros seen; simpl.
  - intros _. split; [constructor | intros x Hx; inversion Hx].
  - destruct (bool_decide (arg_name a ∈ seen)) eqn:Hin; [discriminate|].
    apply bool_decide_eq_false in Hin. intros Hl.
    destruct (IH _ Hl) as [Hnd Hseen]. split.
    + constructor; [|exact Hnd].
      intros Ha. apply list_elem_of_fmap in Ha as (x & Hx & Hxl).
      apply (Hseen x Hxl). rewrite <- Hx. left.
    + intros x Hx. apply elem_of_cons in Hx as [->|Hx]; [exact Hin|].
      intros Hs. apply (Hseen x Hx). right. exact Hs.
Qed.

Section AttributeLists.
Context {value : Type} `{PyValue value}.
Variable builtins : string -> option value.
Variable fresh_dict : value.

Lemma parameter_of_required (defaults : gmap string value) a :
  defaults !! a = None ->
  parameter_of defaults a = {| arg_name := "attr"; arg_default := None |}.
Proof.
  intros Ha. unfold parameter_of. rewrite bool_decide_eq_false_2; [reflexivity|].
  rewrite Ha. intros [v Hv]. discriminate.
Qed.

(** X9: two attributes without default cannot both be given to
    [with_init]: each becomes a parameter called [attr], and the text is
    rejected with a syntax error when the decorator is made. *)
Theorem two_required_attributes_rejected (pre mid post : list string) a b defaults :
  d_items (defaults_or_empty fresh_dict defaults) !! a = None ->
  d_items (defaults_or_empty fresh_dict defaults) !! b = None ->
  exists why,
    with_init builtins fresh_dict (pre ++ a :: mid ++ b :: post) defaults
    = Raise (SyntaxError why).
Proof.
  intros Ha Hb. unfold with_init, exec_init.
  set (d := defaults_or_empty fresh_dict defaults) in *.
  destruct (compile (init_def (pre ++ a :: mid ++ b :: post) (d_items d)))
    as [def|e] eqn:Hc; simpl.
  - exfalso. apply compile_ok in Hc as (_ & _ & Hdup).
    apply first_duplicate_none in Hdup as [Hnd _].
    cbn [def_args init_def map] in Hnd. apply NoDup_cons in Hnd as [_ Hnd].
    change (fun attr : string =>
              if bool_decide (is_Some (d_items d !! attr))
              then {| arg_name := attr; arg_default := Some (DefaultsAt attr) |}
              else {| arg_name := "attr"; arg_default := None |})
      with (parameter_of (d_items d)) in Hnd.
    rewrite !map_app in Hnd. cbn [map] in Hnd. rewrite !map_app in Hnd.
    cbn [map] in Hnd.
    rewrite (parameter_of_required _ a Ha), (parameter_of_required _ b Hb) in Hnd.
    cbn [arg_name] in Hnd.
    apply NoDup_app in Hnd as (_ & _ & Hnd).
    apply NoDup_cons in Hnd as [Hnot _]. apply Hnot.
    apply elem_of_app. right. left.
  - unfold compile in Hc.
    destruct (non_default_follows false _); [inversion Hc; eauto|].
    destruct (first_duplicate [] _); [inversion Hc; eauto | discriminate].
Qed.

(** X10: an attribute without default that comes after one with a default
    cannot be given to [with_init]: the parameter list has a parameter
    without default after one with a default, which is a syntax error. *)
Theorem required_after_default_rejected (pre mid post : list string) a b defaults :
  is_Some (d_items (defaults_or_empty fresh_dict defaults) !! a) ->
  d_items (defaults_or_empty fresh_dict defaults) !! b = None ->
  with_init builtins fresh_dict (pre ++ a :: mid ++ b :: post) defaults
  = Raise (SyntaxError NonDefaultAfterDefault).
Proof.
  intros Ha Hb. unfold with_init, exec_init, compile.
  set (d := defaults_or_empty fresh_dict defaults) in *.
  cbn [def_args init_def].
  change (fun attr : string =>
            if bool_decide (is_Some (d_items d !! attr))
            then {| arg_name := attr; arg_default := Some (DefaultsAt attr) |}
            else {| arg_name := "attr"; arg_default := None |})
    with (parameter_of (d_items d)).
  rewrite map_app. cbn [map].
  assert (Hn : non_default_follows false
                 (({| arg_name := "self"; arg_default := None |}
                   :: map (parameter_of (d_items d)) pre)
                  ++ parameter_of (d_items d) a
                  :: map (parameter_of (d_items d)) (mid ++ b :: post)) = true);
    [apply (non_default_follows_after false _ _ _ (parameter_of (d_items d) b))
    | cbn [app] in Hn; rewrite Hn; reflexivity].
  - unfold parameter_of. rewrite bool_decide_eq_true_2 by exact Ha. eexists. reflexivity.
  - apply list_elem_of_fmap. exists b. split; [reflexivity|].
    apply elem_of_app. right. left.
  - rewrite (parameter_of_required _ b Hb). reflexivity.
Qed.
End AttributeLists.

(** X9 on the example: [a] and [b] without defaults. *)
Lemma two_required_attributes_rejected_witness :
  (d_items (defaults_or_empty dict_ref (None : option (pydict pyval))) !! "a" = None
   /\ d_items (defaults_or_empty dict_ref (None : option (pydict pyval))) !! "b" = None)
  /\ exists why,
       with_init py_builtins dict_ref ([] ++ "a" :: [] ++ "b" :: []) None
       = Raise (SyntaxError why).
Proof.
  split; [split; reflexivity|].
  exact (two_required_attributes_rejected py_builtins dict_ref [] [] [] "a" "b" None
           Logic.eq_refl Logic.eq_refl).
Defined.

(** X10 on the example: [b], with its default, listed before [a]. *)
Lemma required_after_default_rejected_witness :
  (is_Some (d_items (defaults_or_empty dict_ref (Some b_is_0)) !! "b")
   /\ d_items (defaults_or_empty dict_ref (Some b_is_0)) !! "a" = None)
  /\ with_init py_builtins dict_ref ([] ++ "b" :: [] ++ "a" :: []) (Some b_is_0)
     = Raise (SyntaxError NonDefaultAfterDefault).
Proof.
  assert (Hb : is_Some (d_items (defaults_or_empty dict_ref (Some b_is_0)) !! "b"))
    by (exists (PInt 0); reflexivity).
  split; [split; [exact Hb | reflexivity]|].
  exact (required_after_default_rejected py_builtins dict_ref [] [] [] "b" "a"
           (Some b_is_0) Hb Logic.eq_refl).
Defined.

(** ** The empty attribute list *)

Section EmptyAttributeList.
Context {value : Type} `{PyValue value}.
Variable builtins : string -> option value.
Variable fresh_dict : value.

(** X11: for an empty attribute list [with_init] always gives a decorator,
    whatever the defaults; the constructor it installs accepts no argument
    at all, and without arguments it hands the new instance, unchanged, to
    the initializer the class had before. *)
Theorem empty_attribute_list defaults (cl0 : pyclass value) fuel self_ref :
  exists wrap,
    with_init builtins fresh_dict [] defaults = Ok wrap
    /\ construct builtins (S fuel) (wrap cl0) self_ref [] []
       = call_init builtins fuel (wrap cl0) self_ref (cl_init cl0)
           (new_instance (wrap cl0)) [] []
    /\ (forall pos kw, pos <> [] \/ kw <> [] ->
          exists why,
            construct builtins (S fuel) (wrap cl0) self_ref pos kw
            = Raise (TypeError why)).
Proof.
  eexists. split; [reflexivity|]. split.
  - unfold construct. cbn. rewrite lookup_empty.
    destruct (call_init builtins fuel _ self_ref (cl_init cl0) _ [] []); reflexivity.
  - intros pos kw Hne. unfold construct.
    cbn [call_init cl_init _make_wrap_init fn_params].
    unfold bind_args. cbn [fmap list_fmap fst zip zip_with arg_name].
    destruct kw as [|[k v] kw].
    + destruct pos as [|p pos]; [destruct Hne; congruence|].
      cbn. eauto.
    + cbn [bind_keywords].
      destruct (bool_decide (k ∈ ["self"])) eqn:Hk; [|cbn; eauto].
      apply bool_decide_eq_true in Hk. apply list_elem_of_singleton in Hk. subst k.
      assert (Hl : (list_to_map [("self", self_ref)] : gmap string value) !! "self"
                   = Some self_ref).
      { cbn. apply lookup_insert_eq. }
      rewrite Hl. cbn. eauto.
Qed.
End EmptyAttributeList.

(** X11 on the example. *)
Lemma empty_attribute_list_witness :
  exists wrap,
    with_init py_builtins dict_ref [] (Some b_is_0) = Ok wrap
    /\ construct py_builtins 1 (wrap (plain_class Type_ counting_init))
         instance_ref [] []
       = Ok {| ob_type := Type_; ob_dict := {["count" := PInt 0]} |}
    /\ exists why,
         construct py_builtins 1 (wrap (plain_class Type_ counting_init))
           instance_ref [PInt 5] []
         = Raise (TypeError why).
Proof.
  destruct (empty_attribute_list py_builtins dict_ref (Some b_is_0)
              (plain_class Type_ counting_init) 0%nat instance_ref)
    as (wrap & Hw & Hc & Hargs).
  exists wrap. split; [exact Hw|]. split.
  - rewrite Hc. unfold with_init in Hw. cbn in Hw. inversion Hw. subst wrap.
    vm_compute. reflexivity.
  - apply Hargs. left. discriminate.
Defined.

(** X12 on the example: the default of [b]. *)
Lemma with_init_default_unbound_witness :
  ("b" ∈ ab /\ is_Some (d_items b_is_0 !! "b") /\ "b" <> "defaults"
   /\ py_builtins "b" = None)
  /\ exists e, with_init py_builtins dict_ref ab (Some b_is_0) = Raise e.
Proof.
  assert (Hin : "b" ∈ ab) by (right; left).
  assert (Hd : is_Some (d_items b_is_0 !! "b")) by (exists (PInt 0); reflexivity).
  assert (Hne : "b" <> "defaults") by discriminate.
  split; [repeat split; try assumption; reflexivity|].
  exact (with_init_default_unbound py_builtins dict_ref ab b_is_0 "b"
           Hin Hd Hne Logic.eq_refl).
Defined.

(** X13 on the example: the required attribute [a]. *)
Lemma missing_names_of_generated_init_witness :
  (exec_init py_builtins {| d_ref := dict_ref; d_items := ∅ |} ["a"] = Ok init_a
   /\ bind_args (fn_params init_a) [instance_ref] []
      = Raise (TypeError (MissingArguments ["attr"])))
  /\ forall x, x ∈ ["attr"] -> x = "self" \/ x = "attr".
Proof.
  assert (He : exec_init py_builtins {| d_ref := dict_ref; d_items := ∅ |} ["a"]
               = Ok init_a) by (vm_compute; reflexivity).
  assert (Hb : bind_args (fn_params init_a) [instance_ref] []
               = Raise (TypeError (MissingArguments ["attr"])))
    by (vm_compute; reflexivity).
  split; [split; assumption|].
  exact (missing_names_of_generated_init py_builtins _ ["a"] init_a
           [instance_ref] [] ["attr"] He Hb).
Defined.

(** * Further properties of the comparisons and of repr_ *)

Section Swapped.
Context {value : Type} `{PyValue value}.

(** Attribute values whose comparisons can be read from either side. *)
Hypothesis same_sym : forall v w : value, py_same v w = py_same w v.
Hypothesis richcmp_swapped : forall op (v w : value),
  py_richcmp (swapped op) w v = py_richcmp op v w.

Lemma size_cmp_swapped op n m : size_cmp (swapped op) m n = size_cmp op n m.
Proof.
  destruct op; simpl; try reflexivity; rewrite Nat.eqb_sym; reflexivity.
Qed.

Lemma tuple_richcompare_swapped op (t1 t2 : list value) :
  tuple_richcompare (swapped op) t2 t1 = tuple_richcompare op t1 t2.
Proof.
  revert t2. induction t1 as [|v t1 IH]; intros [|w t2];
    try (cbn [tuple_richcompare]; rewrite size_cmp_swapped; reflexivity).
  cbn [tuple_richcompare]. rewrite (same_sym w v).
  destruct (py_same v w) as [[|]|]; simpl; [apply IH | | reflexivity].
  pose proof (richcmp_swapped op v w) as Hop.
  destruct op; simpl in *; try reflexivity; exact Hop.
Qed.

(** X14: between two instances of one class that both have the listed
    attributes, [gt] is [lt] with the operands exchanged and [ge] is [le]
    with the operands exchanged, provided this holds of the attribute
    values and their equality is symmetric. *)
Theorem gt_is_lt_exchanged attrs (x y : obj value) (tx ty : list value) :
  ob_type x = ob_type y ->
  value_tuple attrs x tx ->
  value_tuple attrs y ty ->
  gt attrs x y = lt attrs y x /\ ge attrs x y = le attrs y x
  /\ eq attrs x y = eq attrs y x /\ ne attrs x y = ne attrs y x.
Proof.
  intros Ht Hx Hy. rewrite !ne_of_eq.
  rewrite !eq_compare_with, !lt_compare_with, !le_compare_with,
    !gt_compare_with, !ge_compare_with.
  rewrite !(compare_with_same_type attrs _ x y tx ty Ht Hx Hy).
  rewrite !(compare_with_same_type attrs _ y x ty tx (eq_sym Ht) Hy Hx).
  rewrite <- (tuple_richcompare_swapped Py_LT ty tx).
  rewrite <- (tuple_richcompare_swapped Py_LE ty tx).
  rewrite <- (tuple_richcompare_swapped Py_EQ ty tx).
  repeat split; reflexivity.
Qed.
End Swapped.

Section EdgeCases.
Context {value : Type} `{PyValue value}.

(** X15: with an empty attribute list every instance of the class of
    [self] is equal to it and none is less or greater; all instances hash
    to the hash of the empty tuple and print as the class name with empty
    parentheses. *)
Theorem no_attributes_all_equal (self other : obj value) (combine : list Z -> Z) :
  isinstance other (ob_type self) = true ->
  eq [] self other = Ok (Bool true) /\ ne [] self other = Ok (Bool false)
  /\ lt [] self other = Ok (Bool false) /\ le [] self other = Ok (Bool true)
  /\ gt [] self other = Ok (Bool false) /\ ge [] self other = Ok (Bool true)
  /\ hash_ [] combine self = Ok (combine [])
  /\ repr_ [] self = Ok ("<" ++ tp_name (ob_type self) ++ "()>").
Proof.
  intros Hi. unfold ne, eq, lt, le, gt, ge. rewrite Hi.
  repeat split; reflexivity.
Qed.

(** X16: [repr_] raises [AttributeError] for the first listed attribute
    that the instance lacks, and what [repr] of the first attribute value
    that cannot be printed raises, once the values before it are printed. *)
Theorem repr_raises_at_first_failure (pre post : list string) a (self : obj value) :
  Forall (fun b => exists v r, ob_dict self !! b = Some v /\ py_repr v = Ok r) pre ->
  (ob_dict self !! a = None ->
   repr_ (pre ++ a :: post) self = Raise (AttributeError a))
  /\ (forall v e, ob_dict self !! a = Some v -> py_repr v = Raise e ->
      repr_ (pre ++ a :: post) self = Raise e).
Proof.
  intros Hpre.
  assert (Hok : Forall (fun b => exists s,
                          (v <- getattr self b ;; r <- py_repr v ;; Ok (b ++ "=" ++ r))
                          = Ok s) pre).
  { eapply Forall_impl; [exact Hpre|]. intros b (v & r & Hv & Hr).
    exists (b ++ "=" ++ r). rewrite (proj2 (getattr_ok self b v) Hv). simpl.
    rewrite Hr. reflexivity. }
  split.
  - intros Ha. unfold repr_.
    rewrite (collect_first_raise _ pre post a (AttributeError a) Hok); [reflexivity|].
    unfold getattr. rewrite Ha. reflexivity.
  - intros v e Hv He. unfold repr_.
    rewrite (collect_first_raise _ pre post a e Hok); [reflexivity|].
    rewrite (proj2 (getattr_ok self a v) Hv). simpl. rewrite He. reflexivity.
Qed.
End EdgeCases.

Lemma pyval_eq_sym (v w : pyval) : pyval_eq v w = pyval_eq w v.
Proof.
  destruct v as [|b|n|s|f|i], w as [|c|m|t|g|j]; simpl; try reflexivity;
    try apply Z.eqb_sym; apply String.eqb_sym.
Qed.

Lemma pyval_richcmp_swapped (op : cmp_op) (v w : pyval) :
  pyval_richcmp (swapped op) w v = pyval_richcmp op v w.
Proof.
  destruct v as [|b|n|s|f|i], w as [|c|m|t|g|j]; destruct op;
    unfold pyval_richcmp, pyval_eq, number_cmp, string_cmp, as_number, swapped;
    try reflexivity;
    first [ rewrite Z.eqb_sym; reflexivity
          | rewrite String.eqb_sym; reflexivity ].
Qed.

(** X14 on the example. *)
Lemma gt_is_lt_exchanged_witness :
  ((forall v w : pyval, py_same v w = py_same w v)
   /\ (forall op (v w : pyval), py_richcmp (swapped op) w v = py_richcmp op v w)
   /\ ob_type (instance_ab Type_ 1 3) = ob_type (instance_ab Type_ 1 2)
   /\ value_tuple ab (instance_ab Type_ 1 3) [PInt 1; PInt 3]
   /\ value_tuple ab (instance_ab Type_ 1 2) [PInt 1; PInt 2])
  /\ gt ab (instance_ab Type_ 1 3) (instance_ab Type_ 1 2)
     = lt ab (instance_ab Type_ 1 2) (instance_ab Type_ 1 3)
  /\ ge ab (instance_ab Type_ 1 3) (instance_ab Type_ 1 2)
     = le ab (instance_ab Type_ 1 2) (instance_ab Type_ 1 3).
Proof.
  assert (Hs : forall v w : pyval, py_same v w = py_same w v).
  { intros v w. simpl. rewrite pyval_eq_sym. reflexivity. }
  assert (Hr : forall op (v w : pyval), py_richcmp (swapped op) w v = py_richcmp op v w).
  { intros op v w. apply pyval_richcmp_swapped. }
  assert (Hx : value_tuple ab (instance_ab Type_ 1 3) [PInt 1; PInt 3])
    by (repeat constructor).
  assert (Hy : value_tuple ab (instance_ab Type_ 1 2) [PInt 1; PInt 2])
    by (repeat constructor).
  split; [repeat split; assumption|].
  destruct (gt_is_lt_exchanged Hs Hr ab (instance_ab Type_ 1 3) (instance_ab Type_ 1 2)
              [PInt 1; PInt 3] [PInt 1; PInt 2] Logic.eq_refl Hx Hy)
    as (Hgt & Hge & _).
  split; assumption.
Defined.

(** X15 on the example: an instance of a subclass. *)
Lemma no_attributes_all_equal_witness :
  isinstance (instance_ab SubType 7 8) (ob_type (instance_ab Type_ 1 2)) = true
  /\ eq [] (instance_ab Type_ 1 2) (instance_ab SubType 7 8) = Ok (Bool true)
  /\ lt [] (instance_ab Type_ 1 2) (instance_ab SubType 7 8) = Ok (Bool false)
  /\ repr_ [] (instance_ab Type_ 1 2) = Ok "<Type()>".
Proof.
  assert (Hi : isinstance (instance_ab SubType 7 8) (ob_type (instance_ab Type_ 1 2))
               = true) by reflexivity.
  split; [exact Hi|].
  destruct (no_attributes_all_equal (instance_ab Type_ 1 2) (instance_ab SubType 7 8)
              tuple_combine Hi) as (He & _ & Hl & _ & _ & _ & _ & Hr).
  split; [exact He|]. split; [exact Hl | exact Hr].
Defined.

(** X16 on the example: an instance without [b]. *)
Lemma repr_raises_at_first_failure_witness :
  (Forall (fun b => exists v r,
             ob_dict (instance_a_only Type_ 1) !! b = Some v /\ py_repr v = Ok r) ["a"]
   /\ ob_dict (instance_a_only Type_ 1) !! "b" = None)
  /\ repr_ (["a"] ++ "b" :: []) (instance_a_only Type_ 1) = Raise (AttributeError "b").
Proof.
  assert (Hpre : Forall (fun b => exists v r,
                           ob_dict (instance_a_only Type_ 1) !! b = Some v
                           /\ py_repr v = Ok r) ["a"]).
  { constructor; [|constructor]. exists (PInt 1), "1". split; reflexivity. }
  split; [split; [exact Hpre | reflexivity]|].
  exact (proj1 (repr_raises_at_first_failure ["a"] [] "b" (instance_a_only Type_ 1) Hpre)
           Logic.eq_refl).
Defined.

(** * The values the generated constructor assigns *)

Lemma bind_keywords_dom {value} (names : list string) (kw : list (string * value))
    (locals locals' : gmap string value) (x : string) :
  bind_keywords names kw locals = Ok locals' ->
  is_Some (locals' !! x) -> is_Some (locals !! x) \/ x ∈ names.
Proof.
  revert locals. induction kw as [|[k v] kw IH]; intros locals; simpl.
  - intros Hb. inversion Hb. auto.
  - destruct (bool_decide (k ∈ names)) eqn:Hk; [|discriminate].
    apply bool_decide_eq_true in Hk.
    destruct (locals !! k) eqn:Hl; [discriminate|].
    intros Hb Hx. destruct (IH _ Hb Hx) as [Hin|Hin]; [|right; exact Hin].
    destruct (decide (k = x)) as [<-|Hne]; [right; exact Hk|].
    left. rewrite lookup_insert_ne in Hin by exact Hne. exact Hin.
Qed.

Lemma fill_defaults_dom {value} (params : list (string * option value))
    (locals : gmap string value) (x : string) :
  is_Some (fst (fill_defaults params locals) !! x) ->
  is_Some (locals !! x) \/ x ∈ params.*1.
Proof.
  revert locals. induction params as [|[y d] params IH]; intros locals; simpl.
  - auto.
  - destruct (locals !! y) as [v|] eqn:Hy.
    + intros Hx. destruct (IH _ Hx) as [Hin|Hin]; [left | right; right]; exact Hin.
    + destruct d as [v|].
      * intros Hx. destruct (IH _ Hx) as [Hin|Hin]; [|right; right; exact Hin].
        destruct (decide (y = x)) as [<-|Hne]; [right; left|].
        left. rewrite lookup_insert_ne in Hin by exact Hne. exact Hin.
      * destruct (fill_defaults params locals) as [locals' missing] eqn:Hfd.
        simpl. intros Hx. destruct (IH locals) as [Hin|Hin];
          [rewrite Hfd; exact Hx | left; exact Hin | right; right; exact Hin].
Qed.

(** Binding gives a value to parameters only. *)
Lemma bind_args_dom {value} (params : list (string * option value))
    (pos : list value) (kw : list (string * value)) (locals : gmap string value)
    (x : string) :
  bind_args params pos kw = Ok locals ->
  is_Some (locals !! x) -> x ∈ params.*1.
Proof.
  unfold bind_args. intros Hb Hx.
  apply bind_ok in Hb as (l1 & Hk & Hb).
  destruct (length params <? length pos)%nat; [discriminate|].
  destruct (fill_defaults params l1) as [l2 missing] eqn:Hfd.
  destruct missing; [|discriminate]. inversion Hb; subst l2. clear Hb.
  destruct (fill_defaults_dom params l1 x) as [Hin|Hin];
    [rewrite Hfd; exact Hx | | exact Hin].
  destruct (bind_keywords_dom _ _ _ _ x Hk Hin) as [[v Hv]|Hn]; [|exact Hn].
  apply elem_of_list_to_map_2 in Hv. apply elem_of_zip_l in Hv. exact Hv.
Qed.

Section UnboundAttribute.
Context {value : Type} `{PyValue value}.
Variable builtins : string -> option value.

(** The parameters of a generated constructor are [self], [attr] and the
    attributes that have a default. *)
Lemma exec_init_param_names (defaults : pydict value) attrs (fn : function value) x :
  exec_init builtins defaults attrs = Ok fn ->
  x ∈ (fn_params fn).*1 ->
  x = "self" \/ x = "attr" \/ is_Some (d_items defaults !! x).
Proof.
  unfold exec_init. intros Hexec Hx.
  apply bind_ok in Hexec as (d & Hd & Hfn).
  apply compile_ok in Hd as (-> & _ & _).
  unfold make_function in Hfn. apply bind_ok in Hfn as (ps & Hps & Hfn).
  inversion Hfn; subst. clear Hfn. cbn [fn_params] in Hx.
  apply collect_Forall2 in Hps.
  assert (Hargs : exists a, a ∈ def_args (init_def attrs (d_items defaults))
                            /\ arg_name a = x).
  { clear -Hps Hx. induction Hps as [|a p l ps Hap _ IH]; [inversion Hx|].
    cbn [fmap list_fmap] in Hx. apply elem_of_cons in Hx as [->|Hx].
    - exists a. split; [left|].
      destruct (arg_default a) as [e|]; [|inversion Hap; reflexivity].
      destruct (eval_expr builtins defaults ∅ e); simpl in Hap;
        [inversion Hap; reflexivity | discriminate].
    - destruct (IH Hx) as (a' & Ha' & Hn). exists a'. split; [right|]; assumption. }
  destruct Hargs as (a & Ha & <-).
  cbn [def_args init_def] in Ha. apply elem_of_cons in Ha as [->|Ha]; [left; reflexivity|].
  apply list_elem_of_fmap in Ha as (attr & -> & _).
  destruct (bool_decide (is_Some (d_items defaults !! attr))) eqn:Hd.
  - right. right. apply bool_decide_eq_true in Hd. exact Hd.
  - right. left. reflexivity.
Qed.

(** A listed attribute without default whose name is no parameter, is not
    [defaults] and is no builtin makes every call of the generated
    constructor raise: its body reads the attribute name as a variable,
    and the value the caller passed is bound to [attr]. *)
Lemma required_attribute_never_constructs (defaults : pydict value) attrs fn a
    fuel (cl : pyclass value) self_ref (self : obj value) pos kw (o : obj value) :
  exec_init builtins defaults attrs = Ok fn ->
  a ∈ attrs -> d_items defaults !! a = None ->
  a <> "self" -> a <> "attr" -> a <> "defaults" -> builtins a = None ->
  call_init builtins fuel cl self_ref (SynthInit fn) self pos kw <> Ok o.
Proof.
  intros Hexec Ha Hd Hs Hat Hdf Hb.
  destruct fuel as [|fuel]; [discriminate|].
  rewrite (call_generated builtins fuel defaults attrs fn cl self_ref self pos kw Hexec).
  destruct (bind_args (fn_params fn) (self_ref :: pos) kw) as [locals|e] eqn:Hbind;
    simpl; [|discriminate].
  assert (Hl : locals !! a = None).
  { destruct (locals !! a) as [v|] eqn:Hv; [|reflexivity]. exfalso.
    assert (Hin : a ∈ (fn_params fn).*1)
      by (eapply bind_args_dom; [exact Hbind | rewrite Hv; eauto]).
    destruct (exec_init_param_names defaults attrs fn a Hexec Hin)
      as [?|[?|[w Hw]]]; congruence. }
  destruct (collect_raises (lookup_name builtins defaults locals) attrs a (NameError a) Ha)
    as [e' He'].
  - unfold lookup_name, ns. rewrite Hl.
    rewrite bool_decide_eq_false_2 by exact Hdf. rewrite Hb. reflexivity.
  - rewrite He'. discriminate.
Qed.
End UnboundAttribute.

(** C3 does not hold of the code.  The generated constructor assigns and
    passes on what each attribute name evaluates to as a variable, not the
    value resolved for the attribute: the caller's value is bound to the
    parameter [attr].  For the attribute [len] the call with the argument
    [5] succeeds, stores the builtin function [len] under [len] and hands
    it to the captured initializer, and [5] is lost; for the attribute [a]
    no call at all constructs an instance, whatever the arguments. *)
Theorem builtin_named_attribute_loses_argument :
  with_init py_builtins dict_ref ["len"] None = Ok (_make_wrap_init init_len)
  /\ construct py_builtins 1 (_make_wrap_init init_len (plain_class Type_ recording_init))
       instance_ref [PInt 5] []
     = Ok {| ob_type := Type_;
             ob_dict := <["received" := PBuiltinFunction "len"]>
                          (<["len" := PBuiltinFunction "len"]> ∅) |}
  /\ construct py_builtins 1 (_make_wrap_init init_len (plain_class Type_ recording_init))
       instance_ref [] [("attr", PInt 5)]
     = Ok {| ob_type := Type_;
             ob_dict := <["received" := PBuiltinFunction "len"]>
                          (<["len" := PBuiltinFunction "len"]> ∅) |}
  /\ with_init py_builtins dict_ref ["a"] None = Ok (_make_wrap_init init_a)
  /\ (forall fuel (cl0 : pyclass pyval) pos kw o,
        construct py_builtins fuel (_make_wrap_init init_a cl0) instance_ref pos kw
        <> Ok o).
Proof.
  split; [vm_compute; reflexivity|]. split; [vm_compute; reflexivity|].
  split; [vm_compute; reflexivity|]. split; [vm_compute; reflexivity|].
  intros fuel cl0 pos kw o. unfold construct. cbn [cl_init _make_wrap_init].
  apply (required_attribute_never_constructs py_builtins
           {| d_ref := dict_ref; d_items := ∅ |} ["a"] init_a "a");
    try discriminate; try reflexivity.
  left.
Qed.
